(** * PL peak extraction: a shallow embedding of [pl_peak_extraction.py]

    The script scans a folder of photoluminescence spectra, finds in each
    file the row of maximum intensity and writes one consolidated table.

    The embedding keeps the structure of the script:
    - Python string primitives used by the script ([in], [endswith],
      [os.path.splitext], [os.path.join], [str.replace]);
    - exceptions and console output as a small writer/error monad;
    - the pandas calls as an interface ([Pandas]): the frame [read_csv]
      returns (with the default index or with row labels taken from the
      file), the coercion of a cell, the comparison of floats and the
      writer engines; results stated for every instance hold for every
      behaviour of the library;
    - [.loc] by label as pandas has it: a scalar for a label that occurs
      once, a Series for a label that is repeated;
    - the file system and the output writers as a [World] record;
    - a reference reader (tab separated text, comment lines, field
      counts) in [Reference]. *)

From Stdlib Require Import String Ascii List Bool Arith ZArith QArith Lia.
From Stdlib Require Import DecimalString.
Import ListNotations.
Close Scope Q_scope.
Open Scope list_scope.
Open Scope string_scope.

(* ===================================================================== *)
(** ** Python string primitives *)
(* ===================================================================== *)

Module Py.

(** The characters the script and the readers give a meaning to. *)
Definition TAB : ascii := ascii_of_nat 9.
Definition NL : ascii := ascii_of_nat 10.
Definition QUOTE : ascii := ascii_of_nat 34.

(** [needle in hay] *)
Fixpoint str_in (needle hay : string) : bool :=
  if prefix needle hay then true
  else match hay with
       | EmptyString => false
       | String _ rest => str_in needle rest
       end.

(** [s.endswith(suffix)] *)
Fixpoint endswith (s suffix : string) : bool :=
  if String.eqb s suffix then true
  else match s with
       | EmptyString => false
       | String _ rest => endswith rest suffix
       end.

(** [s.rfind(c)] for a one-character [c]: the highest index, or -1. *)
Fixpoint rfind (c : ascii) (s : string) : Z :=
  match s with
  | EmptyString => (-1)%Z
  | String a rest =>
      let r := rfind c rest in
      if (0 <=? r)%Z then (r + 1)%Z
      else if Ascii.eqb a c then 0%Z else (-1)%Z
  end.

(** The [while filenameIndex < dotIndex] loop of [genericpath._splitext]:
    is there a character other than the dot among the [n] characters that
    start at [filenameIndex]?  *)
Fixpoint has_non_dot (p : string) (filenameIndex n : nat) : bool :=
  match n with
  | O => false
  | S n' =>
      match get filenameIndex p with
      | Some c => if Ascii.eqb c "." then has_non_dot p (S filenameIndex) n' else true
      | None => true
      end
  end.

(** [os.path.splitext(p)] (posixpath: sep '/', extsep '.', no altsep) *)
Definition splitext (p : string) : string * string :=
  let sepIndex := rfind "/" p in
  let dotIndex := rfind "." p in
  if (sepIndex <? dotIndex)%Z then
    let filenameIndex := Z.to_nat (sepIndex + 1) in
    if has_non_dot p filenameIndex (Z.to_nat dotIndex - filenameIndex)
    then (substring 0 (Z.to_nat dotIndex) p,
          substring (Z.to_nat dotIndex) (String.length p - Z.to_nat dotIndex) p)
    else (p, "")
  else (p, "").

(** [os.path.join(a, b)] (posixpath, two arguments) *)
Definition path_join (a b : string) : string :=
  if prefix "/" b then b
  else if orb (String.eqb a "") (endswith a "/") then a ++ b
  else a ++ "/" ++ b.

(** [s.replace(old, new)] for a non-empty [old]: the occurrences of [old]
    are found from the left and do not overlap.  [skip] counts the
    characters of a matched occurrence that are still to be dropped. *)
Fixpoint replace_from (old new : string) (skip : nat) (s : string) : string :=
  match s with
  | EmptyString => EmptyString
  | String c rest =>
      match skip with
      | S k => replace_from old new k rest
      | O =>
          if prefix old s
          then new ++ replace_from old new (String.length old - 1) rest
          else String c (replace_from old new 0 rest)
      end
  end.

Definition replace (old new s : string) : string := replace_from old new 0 s.

(** [str(n)] for a non-negative integer *)
Definition str_of_nat (n : nat) : string :=
  NilZero.string_of_uint (Nat.to_uint n).

End Py.

(* ===================================================================== *)
(** ** Exceptions *)
(* ===================================================================== *)

(** The exception classes the script names in a handler, raises itself or
    meets in the prints of its loop, and [OtherError] for every further
    subclass of [Exception] that the operating system or pandas may raise
    (PermissionError, IsADirectoryError, UnicodeDecodeError, ...).  *)
Inductive exn_class : Type :=
| FileNotFoundError
| EmptyDataError
| ParserError
| ValueError
| KeyError
| TypeError
| ImportError
| ModuleNotFoundError
| OtherError (name : string).

Record exn : Type := Exn { exn_cls : exn_class; exn_msg : string }.

(** [isinstance(e, FileNotFoundError)] *)
Definition is_FileNotFoundError (e : exn) : bool :=
  match exn_cls e with FileNotFoundError => true | _ => false end.

(** [isinstance(e, pd.errors.EmptyDataError)] *)
Definition is_EmptyDataError (e : exn) : bool :=
  match exn_cls e with EmptyDataError => true | _ => false end.

(** [isinstance(e, ImportError)]; ModuleNotFoundError is its subclass. *)
Definition is_ImportError (e : exn) : bool :=
  match exn_cls e with ImportError | ModuleNotFoundError => true | _ => false end.

(* ===================================================================== *)
(** ** The pandas interface *)
(* ===================================================================== *)

(** The frame [read_csv] returns for two names: the cells of the two
    named columns row by row, under the default index 0, 1, 2, ...
    ([Ranged]), or, when the first record of the file has more fields
    than names, with the leading fields of each row as its label
    ([Keyed]); such labels may repeat. *)
Inductive RawFrame (K : Type) : Type :=
| Ranged (cells : list (string * string))
| Keyed (rows : list (K * (string * string))).

Arguments Ranged {K} cells.
Arguments Keyed {K} rows.

Definition frame_cells {K} (frame : RawFrame K) : list (string * string) :=
  match frame with
  | Ranged cells => cells
  | Keyed rows => map snd rows
  end.

(** What the script asks of pandas and of floating point numbers.
    - [float64]: the floats that are not NaN;
    - [key], [key_eqb]: the row labels pandas reads from a file and
      their equality;
    - [read_csv lines skiprows]: the call
      [pd.read_csv(path, sep='\t', skiprows=skiprows, names=[W, I],
      comment='#', header=None)] on a file with these lines: an exception
      or a frame;
    - [to_numeric]: [pd.to_numeric(.., errors='coerce')] on one cell,
      [None] standing for NaN;
    - [gt]: the comparison [>] that [idxmax] scans with;
    - [has_excel_writer ext]: whether [to_excel] finds a writer engine
      for a path with the extension [ext] (without its dot). *)
Class Pandas : Type := {
  float64 : Type;
  key : Type;
  key_eqb : key -> key -> bool;
  read_csv : list string -> nat -> exn + RawFrame key;
  to_numeric : string -> option float64;
  gt : float64 -> float64 -> bool;
  has_excel_writer : string -> bool
}.

(** [>] on floats other than NaN is a strict weak order. *)
Record StrictWeakOrder {A : Type} (gtb : A -> A -> bool) : Prop := {
  gt_irrefl : forall a, gtb a a = false;
  gt_trans : forall a b c, gtb a b = true -> gtb b c = true -> gtb a c = true;
  gt_incomp_trans :
    forall a b c, gtb a b = false -> gtb b c = false -> gtb a c = false
}.

(* ===================================================================== *)
(** ** Configuration *)
(* ===================================================================== *)

(** The module level constants of the script. *)
Record Config : Type := {
  RAW_PL_DATA_FOLDER : string;
  OUTPUT_PEAK_DATA_FILE : string;
  OUTPUT_FILE_TYPE : string;
  PL_WAVELENGTH_COL_NAME : string;
  PL_INTENSITY_COL_NAME : string
}.

(** The values they have in the source. *)
Definition script_config : Config := {|
  RAW_PL_DATA_FOLDER := "PL_Spectra_Raw";
  OUTPUT_PEAK_DATA_FILE := "extracted_pl_peaks.csv";
  OUTPUT_FILE_TYPE := "csv";
  PL_WAVELENGTH_COL_NAME := "lambda [nm]";
  PL_INTENSITY_COL_NAME := "intensity [a.u.]"
|}.

(** [get_sample_id_from_filename] *)
Definition get_sample_id_from_filename (filename : string) : string :=
  let base_name := fst (Py.splitext filename) in
  base_name.

Section Script.

Context {pd : Pandas}.

(* ===================================================================== *)
(** ** Values, data frames, console and effects *)
(* ===================================================================== *)

(** What [df.loc[label, column]] evaluates to: a float for a label that
    occurs once in the index, a Series of the values of all its rows for
    a label that is repeated. *)
Inductive pyval : Type :=
| PyFloat (x : float64)
| PySeries (xs : list float64).

(** A dict value of [processed_peaks_data]. *)
Inductive value : Type :=
| VStr (s : string)
| VFloat (x : float64)
| VSeries (xs : list float64).

Definition value_of (v : pyval) : value :=
  match v with
  | PyFloat x => VFloat x
  | PySeries xs => VSeries xs
  end.

(** A Python dict, keys in insertion order. *)
Definition dict : Type := list (string * value).

(** The output frame [pd.DataFrame(list_of_dicts)]. *)
Record DataFrame : Type := {
  columns : list string;
  records : list dict
}.

Fixpoint add_keys (seen ks : list string) : list string :=
  match ks with
  | [] => seen
  | k :: ks' =>
      if in_dec string_dec k seen then add_keys seen ks'
      else add_keys (seen ++ [k])%list ks'
  end.

(** Columns are the keys of the dicts in order of first appearance. *)
Definition mkDataFrame (data : list dict) : DataFrame := {|
  columns := fold_left (fun seen d => add_keys seen (map fst d)) data [];
  records := data
|}.

(** What the run does to the outside: lines printed and files written.
    The text of the two prints that format floats or a frame is not
    modelled, only what they are given. *)
Inductive event : Type :=
| Printed (line : string)
| PrintedPeak (peak_w peak_i : float64)
| PrintedHead (rows : list dict)
| WroteCsv (path : string) (df : DataFrame)
| WroteExcel (path sheet_name : string) (df : DataFrame).

(** Computations that print, write and may raise. *)
Definition M (A : Type) : Type := list event * (exn + A).

Definition ret {A} (a : A) : M A := ([], inr a).

Definition bind {A B} (m : M A) (k : A -> M B) : M B :=
  match m with
  | (t, inl e) => (t, inl e)
  | (t, inr a) => let (t', r) := k a in ((t ++ t')%list, r)
  end.

Definition raise {A} (e : exn) : M A := ([], inl e).

Definition lift {A} (r : exn + A) : M A := ([], r).

Definition print (line : string) : M unit := ([Printed line], inr tt).

(** [try: body except ...: handler] where the handler takes every
    exception it is given. *)
Definition try_except {A} (body : M A) (handler : exn -> M A) : M A :=
  match body with
  | (t, inl e) => let (t', r) := handler e in ((t ++ t')%list, r)
  | (t, inr a) => (t, inr a)
  end.

Definition trace {A} (m : M A) : list event := fst m.
Definition outcome {A} (m : M A) : exn + A := snd m.

End Script.

Notation "x <- m ;; k" := (bind m (fun x => k))
  (at level 61, m at next level, right associativity).
Notation "m ;;; k" := (bind m (fun _ => k))
  (at level 61, right associativity).

(* ===================================================================== *)
(** ** The outside world *)
(* ===================================================================== *)

(** What the run finds outside: the directory listing ([os.listdir]), the
    text lines of a file ([open(path, 'r')] and iteration, the line ends
    removed; pandas reads the same file), and whether a writer of the
    output frame raises for a path (for [to_excel]: once an engine is
    found for the extension of the path). *)
Record World : Type := {
  listdir : string -> exn + list string;
  read_lines : string -> exn + list string;
  to_csv_error : string -> option exn;
  to_excel_error : string -> option exn
}.

Section Analysis.

Context {pd : Pandas}.
Variable cfg : Config.
Variable w : World.

(** The [for line in f: ... else: raise] loop: the number of lines before
    the first line that contains both column names, [None] for the [else]
    branch. *)
Fixpoint find_header_line (lines : list string) (skip_rows_count : nat)
  : option nat :=
  match lines with
  | [] => None
  | line :: rest =>
      if andb (Py.str_in (PL_WAVELENGTH_COL_NAME cfg) line)
              (Py.str_in (PL_INTENSITY_COL_NAME cfg) line)
      then Some skip_rows_count
      else find_header_line rest (S skip_rows_count)
  end.

(** The ValueError of the [else] branch; [\\t] in the f-string is a
    backslash followed by the letter t. *)
Definition header_not_found (file_path : string) : exn :=
  Exn ValueError
    ("Could not find data header '" ++ PL_WAVELENGTH_COL_NAME cfg ++ "\t"
       ++ PL_INTENSITY_COL_NAME cfg ++ "' in " ++ file_path).

Definition no_data_warning (file_path : string) : string :=
  "  Warning: No valid numerical PL data found in " ++ file_path ++ ".".

(** An index label: a position of the default index, or a label read
    from the file. *)
Inductive label : Type :=
| Position (i : nat)
| FromFile (k : key).

Definition label_eqb (a b : label) : bool :=
  match a, b with
  | Position i, Position j => Nat.eqb i j
  | FromFile k, FromFile k' => key_eqb k k'
  | _, _ => false
  end.

(** The spectrum frame: index label, wavelength cell, intensity cell. *)
Definition spectrum (A : Type) : Type := list (label * A * A).

Fixpoint index_from {A} (start : nat) (rows : list (A * A)) : spectrum A :=
  match rows with
  | [] => []
  | (a, b) :: rest => (Position start, a, b) :: index_from (S start) rest
  end.

(** The frame of [read_csv] with its index. *)
Definition with_index (frame : RawFrame key) : spectrum string :=
  match frame with
  | Ranged cells => index_from 0 cells
  | Keyed rows => map (fun row => (FromFile (fst row), fst (snd row), snd (snd row))) rows
  end.

(** The two [pd.to_numeric(column, errors='coerce')] assignments. *)
Definition coerce_columns (df : spectrum string) : spectrum (option float64) :=
  map (fun '(lbl, wl, it) => (lbl, to_numeric wl, to_numeric it)) df.

(** [dropna(subset=[W, I])]: rows keep their labels. *)
Fixpoint dropna (df : spectrum (option float64)) : spectrum float64 :=
  match df with
  | [] => []
  | (lbl, Some wl, Some it) :: rest => (lbl, wl, it) :: dropna rest
  | _ :: rest => dropna rest
  end.

(** The scan of [argmax]: the running maximum changes only for a value
    that is greater. *)
Fixpoint argmax_scan (best_label : label) (best : float64)
  (rows : spectrum float64) : label :=
  match rows with
  | [] => best_label
  | (lbl, _, it) :: rest =>
      if gt it best then argmax_scan lbl it rest
      else argmax_scan best_label best rest
  end.

(** [df[I].idxmax()] on a column without NaN: the label of the first row
    of maximum intensity. *)
Definition idxmax (df : spectrum float64) : exn + label :=
  match df with
  | [] => inl (Exn ValueError "attempt to get argmax of an empty sequence")
  | (lbl, _, it) :: rest => inr (argmax_scan lbl it rest)
  end.

(** [df.loc[idx, column]]: the rows labelled [idx]. *)
Definition loc (df : spectrum float64) (idx : label)
  (column : float64 * float64 -> float64) : exn + pyval :=
  match filter (fun row => label_eqb (fst (fst row)) idx) df with
  | [] => inl (Exn KeyError "label not found")
  | [row] => inr (PyFloat (column (snd (fst row), snd row)))
  | rows => inr (PySeries (map (fun row => column (snd (fst row), snd row)) rows))
  end.

(** The body of the [try] block of [analyze_single_pl_file]. *)
Definition analyze_try (file_path : string)
  : M (option pyval * option pyval) :=
  lines <- lift (read_lines w file_path) ;;
  skip_rows_count <-
    match find_header_line lines 0 with
    | Some n => ret n
    | None => raise (header_not_found file_path)
    end ;;
  frame <- lift (read_csv lines skip_rows_count) ;;
  let pl_spectrum_df := with_index frame in
  let pl_spectrum_df := coerce_columns pl_spectrum_df in
  let pl_spectrum_df := dropna pl_spectrum_df in
  match pl_spectrum_df with
  | [] =>
      print (no_data_warning file_path) ;;;
      ret (None, None)
  | _ =>
      max_intensity_idx <- lift (idxmax pl_spectrum_df) ;;
      peak_w <- lift (loc pl_spectrum_df max_intensity_idx fst) ;;
      peak_i <- lift (loc pl_spectrum_df max_intensity_idx snd) ;;
      ret (Some peak_w, Some peak_i)
  end.

(** The three [except] clauses, tried in the order of the source. *)
Definition analyze_except (file_path : string) (e : exn)
  : M (option pyval * option pyval) :=
  if is_FileNotFoundError e then
    print ("  Error: File not found: " ++ file_path) ;;;
    ret (None, None)
  else if is_EmptyDataError e then
    print ("  Error: File " ++ file_path ++ " is empty or contains no data.") ;;;
    ret (None, None)
  else
    print ("  Error processing " ++ file_path ++ ": " ++ exn_msg e) ;;;
    ret (None, None).

Definition analyze_single_pl_file (file_path : string)
  : M (option pyval * option pyval) :=
  try_except (analyze_try file_path) (analyze_except file_path).

(* ===================================================================== *)
(** ** The main flow *)
(* ===================================================================== *)

Definition peak_record (sample_id : string) (peak_w peak_i : pyval) : dict :=
  [ ("QW_Sample", VStr sample_id);
    ("PL_Peak_Wavelength_nm", value_of peak_w);
    ("PL_Peak_Intensity_au", value_of peak_i) ].

(** The two lines the loop body prints around the analysis of a file. *)
Definition processing_line (filename : string) : string :=
  "Processing '" ++ filename ++ "' (Sample ID: "
    ++ get_sample_id_from_filename filename ++ ")...".

Definition failed_line (filename : string) : string :=
  "  Failed to extract peak for " ++ get_sample_id_from_filename filename ++ ".".

(** The TypeError of a format specification applied to a Series. *)
Definition format_error : exn :=
  Exn TypeError "unsupported format string passed to Series.__format__".

(** The print of line 120: the format specifications [:.2f] and [:.4f]
    are for floats; a Series raises TypeError. *)
Definition print_peak (peak_w peak_i : pyval) : M unit :=
  match peak_w, peak_i with
  | PyFloat x, PyFloat y => ([PrintedPeak x y], inr tt)
  | _, _ => raise format_error
  end.

(** The body of the [for filename in os.listdir(...)] loop. *)
Definition process_entry (filename : string) (processed_peaks_data : list dict)
  : M (list dict) :=
  if Py.endswith filename ".csv" then
    let sample_id := get_sample_id_from_filename filename in
    let file_path := Py.path_join (RAW_PL_DATA_FOLDER cfg) filename in
    print (processing_line filename) ;;;
    peak <- analyze_single_pl_file file_path ;;
    match peak with
    | (Some peak_w, Some peak_i) =>
        let processed_peaks_data :=
          (processed_peaks_data ++ [peak_record sample_id peak_w peak_i])%list in
        print_peak peak_w peak_i ;;;
        ret processed_peaks_data
    | _ =>
        print (failed_line filename) ;;;
        ret processed_peaks_data
    end
  else ret processed_peaks_data.

Fixpoint process_entries (filenames : list string)
  (processed_peaks_data : list dict) : M (list dict) :=
  match filenames with
  | [] => ret processed_peaks_data
  | filename :: rest =>
      processed_peaks_data <- process_entry filename processed_peaks_data ;;
      process_entries rest processed_peaks_data
  end.

(** [output_df.to_csv(path, index=False)] *)
Definition to_csv (output_df : DataFrame) (path : string) : M unit :=
  match to_csv_error w path with
  | Some e => raise e
  | None => ([WroteCsv path output_df], inr tt)
  end.

(** The extension of a path without its dot, as [ExcelWriter] takes it:
    [os.path.splitext(path)[-1][1:]]. *)
Definition extension_of (path : string) : string :=
  match snd (Py.splitext path) with
  | EmptyString => EmptyString
  | String _ ext => ext
  end.

(** The exception of [to_excel] for a path, if any: ValueError when no
    writer engine is known for the extension, else what the engine
    raises (ImportError when its module is not installed). *)
Definition to_excel_raises (path : string) : option exn :=
  if has_excel_writer (extension_of path) then to_excel_error w path
  else Some (Exn ValueError
               ("No engine for filetype: '" ++ extension_of path ++ "'")).

(** [output_df.to_excel(path, index=False, sheet_name=...)] *)
Definition to_excel (output_df : DataFrame) (path sheet_name : string) : M unit :=
  match to_excel_raises path with
  | Some e => raise e
  | None => ([WroteExcel path sheet_name output_df], inr tt)
  end.

(** [OUTPUT_PEAK_DATA_FILE.replace('.xlsx', '.csv')] *)
Definition fallback_path : string :=
  Py.replace ".xlsx" ".csv" (OUTPUT_PEAK_DATA_FILE cfg).

(** [try: to_excel(...) except ImportError: ...]: other exceptions are
    not caught. *)
Definition save_excel (output_df : DataFrame) : M unit :=
  try_except
    (to_excel output_df (OUTPUT_PEAK_DATA_FILE cfg) "PL_Peaks")
    (fun e =>
       if is_ImportError e then
         print "Error: 'openpyxl' not installed. Cannot save to Excel. Please run: pip install openpyxl" ;;;
         to_csv output_df fallback_path ;;;
         print ("Saved to CSV instead: " ++ fallback_path)
       else raise e).

Definition nothing_extracted : string :=
  String Py.NL
    "No PL peaks were successfully extracted. Check your raw data files and configuration.".

(** What follows the loop. *)
Definition save_results (processed_peaks_data : list dict) : M unit :=
  match processed_peaks_data with
  | [] => print nothing_extracted
  | _ =>
      let output_df := mkDataFrame processed_peaks_data in
      (if String.eqb (OUTPUT_FILE_TYPE cfg) "csv" then
         to_csv output_df (OUTPUT_PEAK_DATA_FILE cfg)
       else if String.eqb (OUTPUT_FILE_TYPE cfg) "excel" then
         save_excel output_df
       else ret tt) ;;;
      print (String Py.NL "--- PL Peak Extraction Complete ---") ;;;
      print ("Extracted peaks for "
               ++ Py.str_of_nat (List.length processed_peaks_data) ++ " samples.") ;;;
      print ("Consolidated data saved to: " ++ OUTPUT_PEAK_DATA_FILE cfg) ;;;
      print (String Py.NL "First 5 rows of extracted data:") ;;;
      ([PrintedHead (firstn 5 processed_peaks_data)], inr tt) ;;;
      print (String Py.NL "This '" ++ OUTPUT_PEAK_DATA_FILE cfg
               ++ "' file can now be used as input for your main ML script.") ;;;
      print "Remember to merge it with your growth parameters (well_width, growth_temp, in_fraction) using the 'PL_Sample' column."
  end.

(** The [if __name__ == "__main__":] block. *)
Definition main : M unit :=
  print "--- Starting PL Peak Extractor Script ---" ;;;
  print (String Py.NL "Scanning raw PL files in: " ++ RAW_PL_DATA_FOLDER cfg) ;;;
  filenames <- lift (listdir w (RAW_PL_DATA_FOLDER cfg)) ;;
  processed_peaks_data <- process_entries filenames [] ;;
  save_results processed_peaks_data.

End Analysis.

(* ===================================================================== *)
(** ** A reference reader *)
(* ===================================================================== *)

(** The reader of [read_csv] for the arguments of the script
    ([sep='\t'], [comment='#'], [header=None], two names, blank lines
    skipped).  On text without the double quote, where quoting plays no
    part, it works line by line.  How pandas reads text that has a
    double quote, how it turns the leading fields of a wide file into
    row labels, and how a cell is coerced to a float are parameters of
    the instance, and the general results on the reader hold for each of
    them; the instance of the examples reads text with a double quote
    character by character, as the tokenizer of pandas does. *)
Module Reference.

(** A line of spaces only (the empty line too) is skipped. *)
Fixpoint is_blank (line : string) : bool :=
  match line with
  | EmptyString => true
  | String c rest => if Ascii.eqb c " " then is_blank rest else false
  end.

(** The rest of a line from the comment character on is not parsed. *)
Fixpoint before_comment (line : string) : string :=
  match line with
  | EmptyString => EmptyString
  | String c rest =>
      if Ascii.eqb c "#" then EmptyString else String c (before_comment rest)
  end.

(** Fields are separated by the tab character. *)
Fixpoint split_tab (line : string) : list string :=
  match line with
  | EmptyString => [EmptyString]
  | String c rest =>
      if Ascii.eqb c Py.TAB then EmptyString :: split_tab rest
      else match split_tab rest with
           | field :: fields => String c field :: fields
           | [] => [String c EmptyString]
           end
  end.

(** The fields of a line, [None] for a line that is no record: a blank
    line, or a line that starts with the comment character. *)
Definition record_of_line (line : string) : option (list string) :=
  if is_blank line then None
  else if prefix "#" line then None
  else Some (split_tab (before_comment line)).

(** The records of the lines, each with the number of its line in the
    file; every line counts, also a line that is no record. *)
Fixpoint records_of_lines (line_no : nat) (lines : list string)
  : list (nat * list string) :=
  match lines with
  | [] => []
  | line :: rest =>
      match record_of_line line with
      | Some fields => (line_no, fields) :: records_of_lines (S line_no) rest
      | None => records_of_lines (S line_no) rest
      end
  end.

Definition too_many_fields (expected line_no saw : nat) : exn :=
  Exn ParserError
    ("Error tokenizing data. C error: Expected " ++ Py.str_of_nat expected
       ++ " fields in line " ++ Py.str_of_nat line_no ++ ", saw "
       ++ Py.str_of_nat saw ++ String Py.NL "").

(** A short record is filled with empty cells (NaN) on the right. *)
Definition pad (expected : nat) (fields : list string) : list string :=
  (fields ++ repeat EmptyString (expected - List.length fields))%list.

(** Every record is brought to the expected number of fields; the first
    record with more fields is an error. *)
Fixpoint padded_rows (expected : nat) (recs : list (nat * list string))
  : exn + list (list string) :=
  match recs with
  | [] => inr []
  | (line_no, fields) :: rest =>
      if Nat.ltb expected (List.length fields)
      then inl (too_many_fields expected line_no (List.length fields))
      else match padded_rows expected rest with
           | inr rows => inr (pad expected fields :: rows)
           | inl e => inl e
           end
  end.

(** The two named columns are the last two fields. *)
Definition last_two (fields : list string) : string * string :=
  match rev fields with
  | b :: a :: _ => (a, b)
  | _ => (EmptyString, EmptyString)
  end.

(** The number of fields pandas expects: that of the first record, and
    at least that of the names. *)
Definition expected_fields (recs : list (nat * list string)) : nat :=
  match recs with
  | [] => 2
  | (_, first) :: _ => Nat.max (List.length first) 2
  end.

(** The double quote opens a quoted field. *)
Definition has_quote (line : string) : bool :=
  Py.str_in (String Py.QUOTE EmptyString) line.

(** *** Text with the double quote *)

(** The tokenizer of pandas (tokenizer.c, [tokenize_bytes]) character by
    character, for the arguments of the script: delimiter tab, comment
    character [#], quote character the double quote with doubling, no
    escape character, blank lines skipped; on a text without carriage
    return.  The states are those of the C code that these arguments
    reach. *)
Inductive ParserState : Type :=
| START_RECORD
| START_FIELD
| IN_FIELD
| IN_QUOTED_FIELD
| QUOTE_IN_QUOTED_FIELD
| EAT_COMMENT
| EAT_LINE_COMMENT
| WHITESPACE_LINE (spaces : nat)
| START_FIELD_IN_SKIP_LINE
| IN_FIELD_IN_SKIP_LINE
| IN_QUOTED_FIELD_IN_SKIP_LINE
| QUOTE_IN_QUOTED_FIELD_IN_SKIP_LINE.

(** The parser: its state, the characters of the field being read, the
    fields of the record being read, the records read so far, each with
    the number of the line it ended on, and the count of lines
    ([file_lines]; a line end inside a quoted field is not counted). *)
Record parser_t : Type := {
  tok_state : ParserState;
  tok_field : string;
  tok_fields : list string;
  tok_records : list (nat * list string);
  tok_file_lines : nat
}.

Definition parser_init : parser_t := {|
  tok_state := START_RECORD;
  tok_field := EmptyString;
  tok_fields := [];
  tok_records := [];
  tok_file_lines := 0
|}.

Definition set_state (s : ParserState) (t : parser_t) : parser_t := {|
  tok_state := s;
  tok_field := tok_field t;
  tok_fields := tok_fields t;
  tok_records := tok_records t;
  tok_file_lines := tok_file_lines t
|}.

Definition PUSH_CHAR (c : ascii) (t : parser_t) : parser_t := {|
  tok_state := tok_state t;
  tok_field := tok_field t ++ String c EmptyString;
  tok_fields := tok_fields t;
  tok_records := tok_records t;
  tok_file_lines := tok_file_lines t
|}.

Definition END_FIELD (t : parser_t) : parser_t := {|
  tok_state := tok_state t;
  tok_field := EmptyString;
  tok_fields := (tok_fields t ++ [tok_field t])%list;
  tok_records := tok_records t;
  tok_file_lines := tok_file_lines t
|}.

(** The end of a record: the check of its number of fields is made on
    the records afterwards ([padded_rows]), with this line number. *)
Definition END_LINE (t : parser_t) : parser_t := {|
  tok_state := START_RECORD;
  tok_field := EmptyString;
  tok_fields := [];
  tok_records := (tok_records t ++ [(S (tok_file_lines t), tok_fields t)])%list;
  tok_file_lines := S (tok_file_lines t)
|}.

(** The end of a line that gives no record: skipped, blank or comment. *)
Definition next_line (t : parser_t) : parser_t := {|
  tok_state := START_RECORD;
  tok_field := EmptyString;
  tok_fields := [];
  tok_records := tok_records t;
  tok_file_lines := S (tok_file_lines t)
|}.

Definition IS_TERMINATOR (c : ascii) : bool := Ascii.eqb c Py.NL.
Definition IS_QUOTE (c : ascii) : bool := Ascii.eqb c Py.QUOTE.
Definition IS_DELIMITER (c : ascii) : bool := Ascii.eqb c Py.TAB.
Definition IS_COMMENT_CHAR (c : ascii) : bool := Ascii.eqb c "#".

(** [case START_FIELD] *)
Definition start_field (c : ascii) (t : parser_t) : parser_t :=
  if IS_TERMINATOR c then END_LINE (END_FIELD t)
  else if IS_QUOTE c then set_state IN_QUOTED_FIELD t
  else if IS_DELIMITER c then set_state START_FIELD (END_FIELD t)
  else if IS_COMMENT_CHAR c then set_state EAT_COMMENT (END_FIELD t)
  else set_state IN_FIELD (PUSH_CHAR c t).

(** [case IN_FIELD]: the quote is a character like any other. *)
Definition in_field (c : ascii) (t : parser_t) : parser_t :=
  if IS_TERMINATOR c then END_LINE (END_FIELD t)
  else if IS_DELIMITER c then set_state START_FIELD (END_FIELD t)
  else if IS_COMMENT_CHAR c then set_state EAT_COMMENT (END_FIELD t)
  else PUSH_CHAR c t.

(** The spaces that began a line which turns out not to be blank are
    read again as the start of its first field. *)
Fixpoint backtrack (spaces : nat) (t : parser_t) : parser_t :=
  match spaces with
  | O => set_state START_FIELD t
  | S n =>
      let t' := backtrack n t in
      match tok_state t' with
      | START_FIELD => start_field " " t'
      | _ => in_field " " t'
      end
  end.

(** One character. *)
Definition tokenize_byte (skiprows : nat) (c : ascii) (t : parser_t) : parser_t :=
  match tok_state t with
  | START_FIELD_IN_SKIP_LINE =>
      if IS_TERMINATOR c then next_line t
      else if IS_QUOTE c then set_state IN_QUOTED_FIELD_IN_SKIP_LINE t
      else if IS_DELIMITER c then t
      else set_state IN_FIELD_IN_SKIP_LINE t
  | IN_FIELD_IN_SKIP_LINE =>
      if IS_TERMINATOR c then next_line t
      else if IS_DELIMITER c then set_state START_FIELD_IN_SKIP_LINE t
      else t
  | IN_QUOTED_FIELD_IN_SKIP_LINE =>
      if IS_QUOTE c then set_state QUOTE_IN_QUOTED_FIELD_IN_SKIP_LINE t
      else t
  | QUOTE_IN_QUOTED_FIELD_IN_SKIP_LINE =>
      if IS_QUOTE c then set_state IN_QUOTED_FIELD_IN_SKIP_LINE t
      else if IS_TERMINATOR c then next_line t
      else if IS_DELIMITER c then set_state START_FIELD_IN_SKIP_LINE t
      else set_state IN_FIELD_IN_SKIP_LINE t
  | WHITESPACE_LINE spaces =>
      if IS_TERMINATOR c then next_line t
      else if Ascii.eqb c " " then set_state (WHITESPACE_LINE (S spaces)) t
      else
        let t' := backtrack spaces t in
        match tok_state t' with
        | START_FIELD => start_field c t'
        | _ => in_field c t'
        end
  | START_RECORD =>
      if Nat.ltb (tok_file_lines t) skiprows then
        if IS_QUOTE c then set_state IN_QUOTED_FIELD_IN_SKIP_LINE t
        else if IS_TERMINATOR c then next_line t
        else set_state IN_FIELD_IN_SKIP_LINE t
      else if IS_TERMINATOR c then next_line t
      else if IS_COMMENT_CHAR c then set_state EAT_LINE_COMMENT t
      else if Ascii.eqb c " " then set_state (WHITESPACE_LINE 1) t
      else start_field c t
  | START_FIELD => start_field c t
  | IN_FIELD => in_field c t
  | IN_QUOTED_FIELD =>
      if IS_QUOTE c then set_state QUOTE_IN_QUOTED_FIELD t
      else PUSH_CHAR c t
  | QUOTE_IN_QUOTED_FIELD =>
      if IS_QUOTE c then set_state IN_QUOTED_FIELD (PUSH_CHAR c t)
      else if IS_DELIMITER c then set_state START_FIELD (END_FIELD t)
      else if IS_TERMINATOR c then END_LINE (END_FIELD t)
      else set_state IN_FIELD (PUSH_CHAR c t)
  | EAT_LINE_COMMENT =>
      if IS_TERMINATOR c then next_line t else t
  | EAT_COMMENT =>
      if IS_TERMINATOR c then END_LINE t else t
  end.

Fixpoint tokenize_bytes (skiprows : nat) (text : string) (t : parser_t)
  : parser_t :=
  match text with
  | EmptyString => t
  | String c rest => tokenize_bytes skiprows rest (tokenize_byte skiprows c t)
  end.

(** [parser_handle_eof]: a quoted field that is still open is an error,
    a record that is still open is ended. *)
Definition parser_handle_eof (t : parser_t)
  : list (nat * list string) * option exn :=
  match tok_state t with
  | START_RECORD | WHITESPACE_LINE _ | EAT_LINE_COMMENT =>
      (tok_records t, None)
  | IN_QUOTED_FIELD =>
      (tok_records t,
       Some (Exn ParserError
               ("Error tokenizing data. C error: EOF inside string starting at row "
                  ++ Py.str_of_nat (tok_file_lines t))))
  | IN_FIELD | START_FIELD | QUOTE_IN_QUOTED_FIELD =>
      (tok_records (END_LINE (END_FIELD t)), None)
  | EAT_COMMENT => (tok_records (END_LINE t), None)
  | START_FIELD_IN_SKIP_LINE | IN_FIELD_IN_SKIP_LINE
  | IN_QUOTED_FIELD_IN_SKIP_LINE | QUOTE_IN_QUOTED_FIELD_IN_SKIP_LINE =>
      (tok_records t, None)
  end.

(** The text of a file: its lines, each with its line end. *)
Fixpoint text_of (lines : list string) : string :=
  match lines with
  | [] => EmptyString
  | line :: rest => line ++ String Py.NL (text_of rest)
  end.

Definition tokenize (lines : list string) (skiprows : nat)
  : list (nat * list string) * option exn :=
  parser_handle_eof (tokenize_bytes skiprows (text_of lines) parser_init).

Section Reader.

Variable K : Type.

(** The index pandas builds from the leading fields of all rows. *)
Variable infer_index : list (list string) -> list K.

(** What [read_csv] does with text that has a double quote. *)
Variable quoted : list string -> nat -> exn + RawFrame K.

(** Two fields per row: the default index.  More: the fields before the
    last two are the row labels. *)
Definition frame_of_rows (expected : nat) (rows : list (list string))
  : RawFrame K :=
  if Nat.eqb expected 2 then Ranged (map last_two rows)
  else Keyed (combine (infer_index (map (firstn (expected - 2)) rows))
                      (map last_two rows)).

Definition read_table (lines : list string) (skiprows : nat)
  : exn + RawFrame K :=
  let recs := records_of_lines (S skiprows) (skipn skiprows lines) in
  match padded_rows (expected_fields recs) recs with
  | inl e => inl e
  | inr rows => inr (frame_of_rows (expected_fields recs) rows)
  end.

(** The frame of a text read character by character: the error of a
    record with too many fields comes before that of the end of the
    file. *)
Definition read_quoted (lines : list string) (skiprows : nat)
  : exn + RawFrame K :=
  let (recs, eof) := tokenize lines skiprows in
  match padded_rows (expected_fields recs) recs with
  | inl e => inl e
  | inr rows =>
      match eof with
      | Some e => inl e
      | None => inr (frame_of_rows (expected_fields recs) rows)
      end
  end.

Definition read_text (lines : list string) (skiprows : nat)
  : exn + RawFrame K :=
  if existsb has_quote lines then quoted lines skiprows
  else read_table lines skiprows.

(** The instance for a coercion, a comparison and a list of writers. *)
Definition pandas_with (F : Type) (K_eqb : K -> K -> bool)
  (coerce : string -> option F) (gtb : F -> F -> bool)
  (writers : string -> bool) : Pandas :=
  Build_Pandas F K K_eqb read_text coerce gtb writers.

End Reader.

(** *** Decimal numbers *)

(** The floats of the examples: the exact value of a decimal literal, or
    an infinity. *)
Inductive decimal : Type :=
| MinusInf
| Finite (q : Q)
| PlusInf.

Definition gtD (a b : decimal) : bool :=
  match a, b with
  | MinusInf, _ => false
  | _, PlusInf => false
  | PlusInf, _ => true
  | _, MinusInf => true
  | Finite p, Finite q => negb (Qle_bool p q)
  end.

(** Decimal digits: the value read so far, the number of digits read, and
    what follows them. *)
Fixpoint span_digits (s : string) (acc : Z) (count : nat) : Z * nat * string :=
  match s with
  | EmptyString => (acc, count, EmptyString)
  | String c rest =>
      let n := nat_of_ascii c in
      if andb (Nat.leb 48 n) (Nat.leb n 57)
      then span_digits rest (10 * acc + Z.of_nat (n - 48))%Z (S count)
      else (acc, count, s)
  end.

(** The white space of ASCII: the space and the characters 9 to 13. *)
Definition is_space (c : ascii) : bool :=
  let n := nat_of_ascii c in
  orb (Nat.eqb n 32) (andb (Nat.leb 9 n) (Nat.leb n 13)).

Fixpoint strip_left (s : string) : string :=
  match s with
  | EmptyString => EmptyString
  | String c rest => if is_space c then strip_left rest else s
  end.

Fixpoint strip_right (s : string) : string :=
  match s with
  | EmptyString => EmptyString
  | String c rest =>
      match strip_right rest with
      | EmptyString => if is_space c then EmptyString else String c EmptyString
      | rest' => String c rest'
      end
  end.

Definition lower (c : ascii) : ascii :=
  let n := nat_of_ascii c in
  if andb (Nat.leb 65 n) (Nat.leb n 90) then ascii_of_nat (n + 32) else c.

Fixpoint lowercase (s : string) : string :=
  match s with
  | EmptyString => EmptyString
  | String c rest => String (lower c) (lowercase rest)
  end.

(** [mantissa * 10 ^ exponent] *)
Definition scale (mantissa exponent : Z) : Q :=
  if (0 <=? exponent)%Z
  then Qred ((mantissa * 10 ^ exponent)%Z # 1)
  else Qred (mantissa # Z.to_pos (10 ^ (- exponent))).

(** The exponent part of a literal: empty, or [e] with a signed integer. *)
Definition parse_exponent (s : string) : option Z :=
  match s with
  | EmptyString => Some 0%Z
  | String c rest =>
      if Ascii.eqb (lower c) "e" then
        let '(negative, body) :=
          match rest with
          | String "-" r => (true, r)
          | String "+" r => (false, r)
          | _ => (false, rest)
          end in
        match span_digits body 0 0 with
        | (_, O, _) => None
        | (e, _, EmptyString) => Some (if negative then (- e)%Z else e)
        | _ => None
        end
      else None
  end.

(** A cell that spells a decimal literal (sign, digits with or without a
    point, exponent, spaces around it) or an infinity is that number;
    every other cell is NaN. *)
Definition parse_float (cell : string) : option decimal :=
  let text := strip_right (strip_left cell) in
  let '(negative, body) :=
    match text with
    | String "-" rest => (true, rest)
    | String "+" rest => (false, rest)
    | _ => (false, text)
    end in
  if orb (String.eqb (lowercase body) "inf")
         (String.eqb (lowercase body) "infinity")
  then Some (if negative then MinusInf else PlusInf)
  else
    let '(int_part, n, rest) := span_digits body 0 0 in
    let '(all_digits, k, rest') :=
      match rest with
      | String "." fraction => span_digits fraction int_part 0
      | _ => (int_part, 0, rest)
      end in
    if Nat.eqb (n + k) 0 then None
    else match parse_exponent rest' with
         | Some e =>
             let mantissa := if negative then (- all_digits)%Z else all_digits in
             Some (Finite (scale mantissa (e - Z.of_nat k)))
         | None => None
         end.

(** *** The instance of the examples *)

Fixpoint fields_eqb (a b : list string) : bool :=
  match a, b with
  | [], [] => true
  | x :: a', y :: b' => andb (String.eqb x y) (fields_eqb a' b')
  | _, _ => false
  end.

(** The writers of a pandas without the engine for [.xls]. *)
Definition known_writer (ext : string) : bool :=
  orb (String.eqb ext "xlsx") (orb (String.eqb ext "xlsm") (String.eqb ext "ods")).

(** Row labels are kept as text: for files whose labels are no
    numbers. *)
Definition pandas : Pandas :=
  pandas_with (list string) (fun labels => labels)
    (read_quoted (list string) (fun labels => labels))
    decimal fields_eqb parse_float gtD known_writer.

(** A world with the given folder and files, where writing succeeds. *)
Fixpoint lookup_file (files : list (string * list string)) (path : string)
  : exn + list string :=
  match files with
  | [] => inl (Exn FileNotFoundError "No such file or directory")
  | (name, lines) :: rest =>
      if String.eqb name path then inr lines else lookup_file rest path
  end.

Definition world_of (folder : string) (entries : list string)
  (files : list (string * list string)) : World := {|
  listdir := fun d =>
    if String.eqb d folder then inr entries
    else inl (Exn FileNotFoundError "No such file or directory");
  read_lines := lookup_file files;
  to_csv_error := fun _ => None;
  to_excel_error := fun _ => None
|}.

Definition tabbed (a b : string) : string := a ++ String Py.TAB b.

Definition header_line : string := tabbed "lambda [nm]" "intensity [a.u.]".

End Reference.

(* ===================================================================== *)
(** ** What the specification speaks of *)
(* ===================================================================== *)

Section Specification.

Context {pd : Pandas}.
Variable cfg : Config.
Variable w : World.

(** The valid numeric rows of a table, in file order: the rows of which
    both cells are numbers. *)
Definition parsed_points (table : list (string * string))
  : list (float64 * float64) :=
  flat_map (fun row =>
              match to_numeric (fst row), to_numeric (snd row) with
              | Some wl, Some it => [(wl, it)]
              | _, _ => []
              end) table.

(** The files written by a run. *)
Definition is_write (e : event) : bool :=
  match e with
  | WroteCsv _ _ | WroteExcel _ _ _ => true
  | _ => false
  end.

Definition writes (t : list event) : list event := filter is_write t.

(** The progress lines of a run: the entries it has taken up. *)
Definition is_progress (e : event) : bool :=
  match e with
  | Printed line => prefix "Processing '" line
  | _ => false
  end.

(** The entries the locator selects. *)
Definition selected (filenames : list string) : list string :=
  filter (fun filename => Py.endswith filename ".csv") filenames.

(** What [analyze_single_pl_file] gives for an entry of the folder. *)
Definition analysis_of (filename : string)
  : exn + (option pyval * option pyval) :=
  outcome (analyze_single_pl_file cfg w
             (Py.path_join (RAW_PL_DATA_FOLDER cfg) filename)).

(** What the loop body prints for a selected entry: the progress line,
    what the analysis of its file prints, and the line of the peak or of
    the failure. *)
Definition entry_events (filename : string) : list event :=
  (Printed (processing_line filename)
     :: trace (analyze_single_pl_file cfg w
                 (Py.path_join (RAW_PL_DATA_FOLDER cfg) filename))
     ++ match analysis_of filename with
        | inr (Some (PyFloat peak_w), Some (PyFloat peak_i)) =>
            [PrintedPeak peak_w peak_i]
        | inr (Some _, Some _) => []
        | _ => [Printed (failed_line filename)]
        end)%list.

(** One row per successfully processed file, in the order of processing. *)
Definition successful_records (filenames : list string) : list dict :=
  flat_map (fun filename =>
              match analysis_of filename with
              | inr (Some (PyFloat peak_w), Some (PyFloat peak_i)) =>
                  [peak_record (get_sample_id_from_filename filename)
                     (PyFloat peak_w) (PyFloat peak_i)]
              | _ => []
              end) (selected filenames).

(** No selected entry has a Series for a peak. *)
Definition scalar_or_none (r : exn + (option pyval * option pyval)) : bool :=
  match r with
  | inr (Some (PyFloat _), Some (PyFloat _)) => true
  | inr (Some _, Some _) => false
  | _ => true
  end.

Definition scalar_peaks (filenames : list string) : bool :=
  forallb (fun filename => scalar_or_none (analysis_of filename))
          (selected filenames).

End Specification.

(** A list without its element at a position. *)
Fixpoint remove_nth {A} (k : nat) (l : list A) : list A :=
  match l, k with
  | [], _ => []
  | _ :: rest, O => rest
  | x :: rest, S k' => x :: remove_nth k' rest
  end.


(** A line that contains both column names: the test of the header loop. *)
Definition has_both_names (cfg : Config) (line : string) : bool :=
  andb (Py.str_in (PL_WAVELENGTH_COL_NAME cfg) line)
       (Py.str_in (PL_INTENSITY_COL_NAME cfg) line).

(** The fixed column identifiers of the output table. *)
Definition output_columns : list string :=
  ["QW_Sample"; "PL_Peak_Wavelength_nm"; "PL_Peak_Intensity_au"].

(** A name made of dots only (the empty name too). *)
Fixpoint only_dots (s : string) : bool :=
  match s with
  | EmptyString => true
  | String c rest => if Ascii.eqb c "." then only_dots rest else false
  end.

(** A path with its last [n] characters removed. *)
Definition drop_last (n : nat) (s : string) : string :=
  substring 0 (String.length s - n) s.

(** The spreadsheet extension replaced by the delimited-text extension. *)
Definition with_csv_extension (path : string) : string :=
  if Py.endswith path ".xlsx" then drop_last 5 path ++ ".csv" else path.

(** Worlds and configurations the results are exercised on. *)
Module Examples.

Import Reference.

Definition spectrum_A : list string :=
  ["# sample A"; "# instrument notes"; header_line;
   tabbed "500.0" "10.0"; tabbed "510.0" "55.2"; tabbed "520.0" "55.2"].


Definition spectrum_B : list string := ["# sample B"; header_line].

Definition spectrum_no_header : list string :=
  ["# sample C"; tabbed "500.0" "10.0"].

Definition spectrum_comments : list string :=
  [header_line; "#note"; tabbed "500.0" "1.0"; "#skip"; tabbed "500.0" "99.0"].

Definition spectrum_comments_less : list string :=
  [header_line; "#note"; tabbed "500.0" "1.0"; tabbed "500.0" "99.0"].

(** A file with a leading column: its rows are labelled by the sample. *)
Definition spectrum_G : list string :=
  [tabbed "sample" header_line;
   tabbed "G" (tabbed "500.0" "10.0");
   tabbed "G" (tabbed "510.0" "55.2")].

(** A file with a leading column of row names that differ. *)
Definition spectrum_H : list string :=
  [tabbed "row" header_line;
   tabbed "r1" (tabbed "500.0" "10.0");
   tabbed "r2" (tabbed "510.0" "55.2");
   tabbed "r3" (tabbed "520.0" "55.2")].

Definition folder_files : list (string * list string) :=
  [("PL_Spectra_Raw/A.csv", spectrum_A);
   ("PL_Spectra_Raw/B.csv", spectrum_B);
   ("PL_Spectra_Raw/C.csv", spectrum_no_header);
   ("PL_Spectra_Raw/G.csv", spectrum_G);
   ("PL_Spectra_Raw/H.csv", spectrum_H);
   ("PL_Spectra_Raw/K.csv", spectrum_comments)].

Definition lab_entries : list string :=
  ["A.csv"; "B.csv"; "notes.txt"; "C.csv"].

Definition lab : World := world_of "PL_Spectra_Raw" lab_entries folder_files.


(** One file, with and without its second comment line. *)
Definition lab_comments : World :=
  world_of "PL_Spectra_Raw" ["K.csv"]
    [("PL_Spectra_Raw/K.csv", spectrum_comments)].

Definition lab_comments_less : World :=
  world_of "PL_Spectra_Raw" ["K.csv"]
    [("PL_Spectra_Raw/K.csv", spectrum_comments_less)].

(** A file in which a line that begins with [#] closes a quoted field,
    and the same file without that line. *)
Definition spectrum_Q : list string :=
  [header_line;
   tabbed "500.0" (String Py.QUOTE "1.0");
   String "#" (String Py.QUOTE "");
   tabbed "600.0" "99.0";
   String "x" (String Py.QUOTE "")].

Definition spectrum_Q_less : list string :=
  [header_line;
   tabbed "500.0" (String Py.QUOTE "1.0");
   tabbed "600.0" "99.0";
   String "x" (String Py.QUOTE "")].

Definition lab_quoted : World :=
  world_of "PL_Spectra_Raw" ["Q.csv"]
    [("PL_Spectra_Raw/Q.csv", spectrum_Q)].

Definition lab_quoted_less : World :=
  world_of "PL_Spectra_Raw" ["Q.csv"]
    [("PL_Spectra_Raw/Q.csv", spectrum_Q_less)].

(** A folder in which the labelled file comes before sample A. *)
Definition lab_labelled : World :=
  world_of "PL_Spectra_Raw" ["G.csv"; "A.csv"] folder_files.

(** A folder with a file named [.csv]. *)
Definition lab_dotfile : World :=
  world_of "PL_Spectra_Raw" [".csv"] [("PL_Spectra_Raw/.csv", spectrum_A)].

(** The input folder is missing. *)
Definition lab_missing : World := world_of "elsewhere" [] [].

(** The output file cannot be written. *)
Definition permission_denied : exn :=
  Exn (OtherError "PermissionError") "[Errno 13] Permission denied".

Definition lab_read_only : World := {|
  listdir := listdir lab;
  read_lines := read_lines lab;
  to_csv_error := fun _ => Some permission_denied;
  to_excel_error := fun _ => Some permission_denied
|}.

(** The spreadsheet writer is not installed. *)
Definition no_openpyxl : exn :=
  Exn ModuleNotFoundError "No module named 'openpyxl'".

Definition lab_no_openpyxl : World := {|
  listdir := listdir lab;
  read_lines := read_lines lab;
  to_csv_error := fun _ => None;
  to_excel_error := fun _ => Some no_openpyxl
|}.

(** A configuration with another output type and path. *)
Definition typed_config (file_type path : string) : Config := {|
  RAW_PL_DATA_FOLDER := "PL_Spectra_Raw";
  OUTPUT_PEAK_DATA_FILE := path;
  OUTPUT_FILE_TYPE := file_type;
  PL_WAVELENGTH_COL_NAME := "lambda [nm]";
  PL_INTENSITY_COL_NAME := "intensity [a.u.]"
|}.

Definition excel_config (path : string) : Config := typed_config "excel" path.

(** The numbers of the examples. *)
Definition num (n d : positive) : decimal := Finite (Zpos n # d).

(** The row and the table of the folder [lab]: sample A. *)
Definition record_A : @dict pandas :=
  @peak_record pandas "A" (@PyFloat pandas (num 510 1)) (@PyFloat pandas (num 276 5)).

Definition table_A : @DataFrame pandas := {|
  columns := ["QW_Sample"; "PL_Peak_Wavelength_nm"; "PL_Peak_Intensity_au"];
  records := [record_A]
|}.

(** The spectrum of sample A without the lines before its header. *)
Definition spectrum_A_bare : list string :=
  [header_line; tabbed "500.0" "10.0"; tabbed "510.0" "55.2";
   tabbed "520.0" "55.2"].

Definition lab_bare : World :=
  world_of "PL_Spectra_Raw" ["A.csv"]
    [("PL_Spectra_Raw/A.csv", spectrum_A_bare)].

(** The same spectrum with an empty line and with a remark after a
    value. *)
Definition spectrum_A_blank : list string :=
  [header_line; tabbed "500.0" "10.0"; ""; tabbed "510.0" "55.2";
   tabbed "520.0" "55.2"].

Definition spectrum_A_remark : list string :=
  [header_line; tabbed "500.0" "10.0#dark"; tabbed "510.0" "55.2";
   tabbed "520.0" "55.2"].

Definition lab_blank : World :=
  world_of "PL_Spectra_Raw" ["A.csv"]
    [("PL_Spectra_Raw/A.csv", spectrum_A_blank)].

Definition lab_remark : World :=
  world_of "PL_Spectra_Raw" ["A.csv"]
    [("PL_Spectra_Raw/A.csv", spectrum_A_remark)].

End Examples.

(* ===================================================================== *)
(** ** The scan for the maximum *)
(* ===================================================================== *)

Section Argmax.

Context {pd : Pandas}.

Definition label_of (r : label * float64 * float64) : label := fst (fst r).
Definition point_of (r : label * float64 * float64) : float64 * float64 :=
  (snd (fst r), snd r).

(** The row the scan stops at, where [argmax_scan] gives its label. *)
Fixpoint scan_row (best : label * float64 * float64) (rows : spectrum float64)
  : label * float64 * float64 :=
  match rows with
  | [] => best
  | r :: rest => if gt (snd r) (snd best) then scan_row r rest else scan_row best rest
  end.

(** The same scan on points: the first point of maximum intensity. *)
Fixpoint first_max (best : float64 * float64) (pts : list (float64 * float64))
  : float64 * float64 :=
  match pts with
  | [] => best
  | p :: rest => if gt (snd p) (snd best) then first_max p rest else first_max best rest
  end.

(** The rows [.loc] selects for a label. *)
Definition rows_at (df : spectrum float64) (idx : label) : spectrum float64 :=
  filter (fun row => label_eqb (label_of row) idx) df.

(** What the [try] block does with the frame that [dropna] leaves. *)
Definition peak_of_frame (file_path : string) (df : spectrum float64)
  : M (option pyval * option pyval) :=
  match df with
  | [] => ([Printed (no_data_warning file_path)], inr (None, None))
  | r :: rows =>
      match rows_at df (label_of (scan_row r rows)) with
      | [] => ([], inl (Exn KeyError "label not found"))
      | [row] =>
          ([], inr (Some (PyFloat (fst (point_of row))),
                    Some (PyFloat (snd (point_of row)))))
      | found =>
          ([], inr (Some (PySeries (map (fun row => fst (point_of row)) found)),
                    Some (PySeries (map (fun row => snd (point_of row)) found))))
      end
  end.


Lemma argmax_scan_label (rows : spectrum float64) (best : label * float64 * float64) :
  argmax_scan (label_of best) (snd best) rows = label_of (scan_row best rows).
Proof.
  revert best. induction rows as [|[[l wl] it] rest IH]; intros best; simpl.
  - reflexivity.
  - destruct (gt it (snd best)).
    + apply (IH (l, wl, it)).
    + apply IH.
Qed.

Lemma scan_row_in (rows : spectrum float64) (best : label * float64 * float64) :
  In (scan_row best rows) (best :: rows).
Proof.
  revert best. induction rows as [|r rest IH]; intros best; simpl.
  - now left.
  - destruct (gt (snd r) (snd best)).
    + right. apply IH.
    + destruct (IH best) as [H|H]; [now left | now right; right].
Qed.

(** The frame left by [dropna], once more as the [try] block treats it. *)
Lemma peak_of_frame_spec (file_path : string) (df : spectrum float64) :
  match df with
  | [] =>
      (print (no_data_warning file_path) ;;; ret (None, None))
  | _ =>
      max_intensity_idx <- lift (idxmax df) ;;
      peak_w <- lift (loc df max_intensity_idx fst) ;;
      peak_i <- lift (loc df max_intensity_idx snd) ;;
      ret (Some peak_w, Some peak_i)
  end = peak_of_frame file_path df.
Proof.
  destruct df as [|r rows]; [reflexivity|].
  unfold peak_of_frame, idxmax, bind, lift, ret, loc.
  destruct r as [[l wl] it].
  pose proof (argmax_scan_label rows (l, wl, it)) as Hidx.
  unfold label_of at 1 in Hidx. cbn [fst snd] in Hidx. rewrite Hidx.
  unfold rows_at.
  change (fun row : label * float64 * float64 =>
            label_eqb (fst (fst row)) (label_of (scan_row (l, wl, it) rows)))
    with (fun row : label * float64 * float64 =>
            label_eqb (label_of row) (label_of (scan_row (l, wl, it) rows))).
  destruct (filter _ ((l, wl, it) :: rows)) as [|row [|row' found]]; reflexivity.
Qed.

Section Order.

Hypothesis gt_order : StrictWeakOrder gt.

Lemma gt_asym (a b : float64) : gt a b = true -> gt b a = false.
Proof.
  intros Hab. destruct (gt b a) eqn:Hba; [|reflexivity].
  pose proof (gt_trans _ gt_order _ _ _ Hab Hba) as H.
  rewrite (gt_irrefl _ gt_order) in H. discriminate.
Qed.

(** Above a value that nothing seen so far exceeds. *)
Lemma gt_above_bound (x best q : float64) :
  gt x best = true -> gt q best = false -> gt x q = true.
Proof.
  intros Hx Hq. destruct (gt x q) eqn:E; [reflexivity|].
  rewrite (gt_incomp_trans _ gt_order _ _ _ E Hq) in Hx. discriminate.
Qed.

(** The invariant of the scan: [best] sits at position [kb] of the rows
    seen so far, none of them exceeds it and those before it are below. *)
Lemma scan_row_spec (rows seen : spectrum float64)
  (best : label * float64 * float64) (kb : nat) :
  nth_error seen kb = Some best ->
  (forall j q, nth_error seen j = Some q -> gt (snd q) (snd best) = false) ->
  (forall j q, j < kb -> nth_error seen j = Some q -> gt (snd best) (snd q) = true) ->
  exists k,
    nth_error (seen ++ rows) k = Some (scan_row best rows) /\
    (forall j q, nth_error (seen ++ rows) j = Some q ->
                 gt (snd q) (snd (scan_row best rows)) = false) /\
    (forall j q, j < k -> nth_error (seen ++ rows) j = Some q ->
                 gt (snd (scan_row best rows)) (snd q) = true).
Proof.
  revert seen best kb.
  induction rows as [|r rest IH]; intros seen best kb Hkb Hmax Hfirst; simpl.
  - exists kb. rewrite app_nil_r. auto.
  - assert (Hlen : kb < List.length seen)
      by (apply nth_error_Some; rewrite Hkb; discriminate).
    replace (seen ++ r :: rest)%list with ((seen ++ [r]) ++ rest)%list
      by (rewrite <- app_assoc; reflexivity).
    destruct (gt (snd r) (snd best)) eqn:Hr.
    + apply (IH (seen ++ [r])%list r (List.length seen)).
      * rewrite nth_error_app2 by lia. now rewrite Nat.sub_diag.
      * intros j q Hj.
        destruct (Nat.lt_ge_cases j (List.length seen)) as [Hlt|Hge].
        -- rewrite nth_error_app1 in Hj by assumption.
           apply (gt_incomp_trans _ gt_order _ (snd best)).
           ++ now apply (Hmax j).
           ++ now apply gt_asym.
        -- rewrite nth_error_app2 in Hj by assumption.
           destruct (j - List.length seen) as [|m]; simpl in Hj.
           ++ inversion Hj; subst. apply (gt_irrefl _ gt_order).
           ++ destruct m; discriminate.
      * intros j q Hlt Hj. rewrite nth_error_app1 in Hj by assumption.
        apply (gt_above_bound _ (snd best)); [assumption | now apply (Hmax j)].
    + apply (IH (seen ++ [r])%list best kb).
      * now rewrite nth_error_app1.
      * intros j q Hj.
        destruct (Nat.lt_ge_cases j (List.length seen)) as [Hlt|Hge].
        -- rewrite nth_error_app1 in Hj by assumption. now apply (Hmax j).
        -- rewrite nth_error_app2 in Hj by assumption.
           destruct (j - List.length seen) as [|m]; simpl in Hj.
           ++ now inversion Hj; subst.
           ++ destruct m; discriminate.
      * intros j q Hlt Hj. rewrite nth_error_app1 in Hj by lia.
        now apply (Hfirst j).
Qed.

(** The scan from the first row: the first row of maximum intensity. *)
Lemma scan_row_first_max (r : label * float64 * float64) (rows : spectrum float64) :
  exists k,
    nth_error (r :: rows) k = Some (scan_row r rows) /\
    (forall j q, nth_error (r :: rows) j = Some q ->
                 gt (snd q) (snd (scan_row r rows)) = false) /\
    (forall j q, j < k -> nth_error (r :: rows) j = Some q ->
                 gt (snd (scan_row r rows)) (snd q) = true).
Proof.
  apply (scan_row_spec rows [r] r 0).
  - reflexivity.
  - intros [|[|j]] q Hj; simpl in Hj; try discriminate.
    inversion Hj; subst. apply (gt_irrefl _ gt_order).
  - intros j q Hlt. lia.
Qed.

End Order.

End Argmax.

(* ===================================================================== *)
(** ** The spectrum frame *)
(* ===================================================================== *)

Lemma filter_none {A} (f : A -> bool) (l : list A) :
  (forall x, In x l -> f x = false) -> filter f l = [].
Proof.
  induction l as [|x l IH]; intros Hf; cbn [filter]; [reflexivity|].
  rewrite (Hf x) by now left. apply IH. intros y Hy. apply Hf. now right.
Qed.

Section Frame.

Context {pd : Pandas}.

Lemma dropna_points_ranged (cells : list (string * string)) (start : nat) :
  map point_of (dropna (coerce_columns (index_from start cells)))
  = parsed_points cells.
Proof.
  revert start. induction cells as [|[a b] rest IH]; intros start; simpl.
  - reflexivity.
  - destruct (to_numeric a) as [wl|], (to_numeric b) as [it|]; simpl;
      now rewrite (IH (S start)).
Qed.

(** The points of the frame left by [dropna] are the valid numeric rows
    of the cells, whatever the index. *)
Lemma dropna_points (frame : RawFrame key) :
  map point_of (dropna (coerce_columns (with_index frame)))
  = parsed_points (frame_cells frame).
Proof.
  destruct frame as [cells|rows]; [apply dropna_points_ranged|].
  cbn [with_index frame_cells].
  induction rows as [|[k [a b]] rest IH]; simpl; [reflexivity|].
  destruct (to_numeric a) as [wl|], (to_numeric b) as [it|]; simpl;
    now rewrite IH.
Qed.

Lemma dropna_labels_ge (cells : list (string * string)) (start : nat) :
  Forall (fun r => exists i, label_of r = Position i /\ start <= i)
         (dropna (coerce_columns (index_from start cells))).
Proof.
  revert start. induction cells as [|[a b] rest IH]; intros start; simpl.
  - constructor.
  - assert (Hrest : Forall (fun r => exists i, label_of r = Position i /\ start <= i)
                      (dropna (coerce_columns (index_from (S start) rest)))).
    { eapply Forall_impl; [|apply (IH (S start))].
      intros r [i [Hr Hi]]. exists i. split; [assumption | lia]. }
    destruct (to_numeric a) as [wl|], (to_numeric b) as [it|]; simpl;
      try assumption.
    constructor; [|assumption]. exists start. split; [reflexivity | lia].
Qed.

(** Under the default index every label occurs once. *)
Lemma rows_at_ranged (cells : list (string * string)) (start : nat)
  (r : label * float64 * float64) :
  In r (dropna (coerce_columns (index_from start cells))) ->
  rows_at (dropna (coerce_columns (index_from start cells))) (label_of r) = [r].
Proof.
  revert start. induction cells as [|[a b] rest IH]; intros start; simpl.
  - contradiction.
  - pose proof (dropna_labels_ge rest (S start)) as Hge.
    rewrite Forall_forall in Hge.
    destruct (to_numeric a) as [wl|], (to_numeric b) as [it|]; simpl;
      try apply IH.
    intros [Hr|Hin].
    + subst r. unfold rows_at. cbn [filter].
      change (label_of (Position start, wl, it)) with (Position start).
      cbn [label_eqb]. rewrite Nat.eqb_refl.
      f_equal. apply filter_none. intros r Hr.
      destruct (Hge r Hr) as [i [Hi Hle]]. rewrite Hi. cbn [label_eqb].
      apply Nat.eqb_neq. lia.
    + destruct (Hge r Hin) as [i [Hi Hle]].
      unfold rows_at. cbn [filter].
      change (label_of (Position start, wl, it)) with (Position start).
      rewrite Hi. cbn [label_eqb].
      replace (Nat.eqb start i) with false by (symmetry; apply Nat.eqb_neq; lia).
      rewrite <- Hi. now apply IH.
Qed.

End Frame.

(* ===================================================================== *)
(** ** analyze_single_pl_file *)
(* ===================================================================== *)

Section AnalyzeFacts.

Context {pd : Pandas}.
Variable cfg : Config.
Variable w : World.

Lemma bind_lift_inr {A B} (a : A) (k : A -> M B) : bind (lift (inr a)) k = k a.
Proof. unfold bind, lift. now destruct (k a). Qed.

Lemma bind_ret_l {A B} (a : A) (k : A -> M B) : bind (ret a) k = k a.
Proof. unfold bind, ret. now destruct (k a). Qed.

Lemma M_eta {A} (m : M A) : m = (trace m, outcome m).
Proof. now destruct m. Qed.

Lemma trace_pair {A} (t : list event) (r : exn + A) : trace (t, r) = t.
Proof. reflexivity. Qed.

Lemma outcome_pair {A} (t : list event) (r : exn + A) : outcome (t, r) = r.
Proof. reflexivity. Qed.

(** The [try] block once the file has been read, its header line found
    and the frame returned. *)
Lemma analyze_try_frame (file_path : string) (lines : list string) (n : nat)
  (frame : RawFrame key) :
  read_lines w file_path = inr lines ->
  find_header_line cfg lines 0 = Some n ->
  read_csv lines n = inr frame ->
  analyze_try cfg w file_path
  = peak_of_frame file_path (dropna (coerce_columns (with_index frame))).
Proof.
  intros Hread Hhead Hcsv. unfold analyze_try.
  rewrite Hread, bind_lift_inr, Hhead, bind_ret_l, Hcsv, bind_lift_inr.
  apply peak_of_frame_spec.
Qed.

(** The three ways the frame left by [dropna] is dealt with. *)
Lemma peak_of_frame_cases (file_path : string) (df : spectrum float64) :
  (df = [] /\
   peak_of_frame file_path df
   = ([Printed (no_data_warning file_path)], inr (None, None))) \/
  (exists e, peak_of_frame file_path df = ([], inl e)) \/
  (exists peak_w peak_i,
      peak_of_frame file_path df = ([], inr (Some peak_w, Some peak_i))).
Proof.
  destruct df as [|r rows]; [now left|]. right. unfold peak_of_frame.
  destruct (rows_at (r :: rows) (label_of (scan_row r rows)))
    as [|row [|row' found]].
  - left. now eexists.
  - right. now eexists; eexists.
  - right. now eexists; eexists.
Qed.

(** The three ways the [try] block ends, with what it has printed. *)
Lemma analyze_try_cases (file_path : string) :
  (exists e, analyze_try cfg w file_path = ([], inl e)) \/
  analyze_try cfg w file_path
  = ([Printed (no_data_warning file_path)], inr (None, None)) \/
  (exists peak_w peak_i,
      analyze_try cfg w file_path = ([], inr (Some peak_w, Some peak_i))).
Proof.
  destruct (read_lines w file_path) as [e|lines] eqn:Hread.
  { left. exists e. unfold analyze_try, bind, lift. now rewrite Hread. }
  destruct (find_header_line cfg lines 0) as [n|] eqn:Hhead.
  2:{ left. exists (header_not_found cfg file_path).
      unfold analyze_try, bind, lift, raise. now rewrite Hread, Hhead. }
  destruct (read_csv lines n) as [e|frame] eqn:Hcsv.
  { left. exists e.
    unfold analyze_try, bind, lift, ret. now rewrite Hread, Hhead, Hcsv. }
  rewrite (analyze_try_frame file_path lines n frame Hread Hhead Hcsv).
  destruct (peak_of_frame_cases file_path
              (dropna (coerce_columns (with_index frame))))
    as [[_ H]|[[e H]|[peak_w [peak_i H]]]].
  - now right; left.
  - left. now exists e.
  - right. right. now exists peak_w, peak_i.
Qed.

Lemma analyze_except_result (file_path : string) (e : exn) :
  exists line, analyze_except file_path e = ([Printed line], inr (None, None)).
Proof.
  unfold analyze_except.
  destruct (is_FileNotFoundError e); [eexists; reflexivity|].
  destruct (is_EmptyDataError e); eexists; reflexivity.
Qed.

(** An exception of the [try] block ends in one printed line and the
    pair (None, None). *)
Lemma analyze_raised (file_path : string) (t : list event) (e : exn) :
  analyze_try cfg w file_path = (t, inl e) ->
  exists line,
    analyze_except file_path e = ([Printed line], inr (None, None)) /\
    analyze_single_pl_file cfg w file_path
    = ((t ++ [Printed line])%list, inr (None, None)).
Proof.
  intros Htry. destruct (analyze_except_result file_path e) as [line Hline].
  exists line. split; [assumption|].
  unfold analyze_single_pl_file, try_except. now rewrite Htry, Hline.
Qed.

Lemma analyze_returned (file_path : string) (t : list event)
  (r : option pyval * option pyval) :
  analyze_try cfg w file_path = (t, inr r) ->
  analyze_single_pl_file cfg w file_path = (t, inr r).
Proof.
  intros Htry. unfold analyze_single_pl_file, try_except. now rewrite Htry.
Qed.

(** The run of a file whose frame is known. *)
Lemma analyze_frame (file_path : string) (lines : list string) (n : nat)
  (frame : RawFrame key) :
  read_lines w file_path = inr lines ->
  find_header_line cfg lines 0 = Some n ->
  read_csv lines n = inr frame ->
  analyze_single_pl_file cfg w file_path
  = try_except
      (peak_of_frame file_path (dropna (coerce_columns (with_index frame))))
      (analyze_except file_path).
Proof.
  intros Hread Hhead Hcsv. unfold analyze_single_pl_file.
  now rewrite (analyze_try_frame file_path lines n frame Hread Hhead Hcsv).
Qed.

(** The two ways [analyze_single_pl_file] ends. *)
Lemma analyze_outcome (file_path : string) :
  outcome (analyze_single_pl_file cfg w file_path) = inr (None, None) \/
  exists peak_w peak_i,
    outcome (analyze_single_pl_file cfg w file_path)
    = inr (Some peak_w, Some peak_i).
Proof.
  destruct (analyze_try_cases file_path)
    as [[e Htry]|[Htry|[peak_w [peak_i Htry]]]].
  - destruct (analyze_raised file_path [] e Htry) as [line [_ Hrun]].
    left. now rewrite Hrun.
  - left. now rewrite (analyze_returned file_path _ _ Htry).
  - right. exists peak_w, peak_i.
    now rewrite (analyze_returned file_path _ _ Htry).
Qed.


Lemma find_header_line_none (lines : list string) (k : nat) :
  (forall line, In line lines ->
     andb (Py.str_in (PL_WAVELENGTH_COL_NAME cfg) line)
          (Py.str_in (PL_INTENSITY_COL_NAME cfg) line) = false) ->
  find_header_line cfg lines k = None.
Proof.
  revert k. induction lines as [|line rest IH]; intros k Hnone; simpl.
  - reflexivity.
  - rewrite (Hnone line) by now left.
    apply IH. intros l Hl. apply Hnone. now right.
Qed.

End AnalyzeFacts.

(* ===================================================================== *)
(** ** The loop over the directory entries *)
(* ===================================================================== *)

Section LoopFacts.

Context {pd : Pandas}.
Variable cfg : Config.
Variable w : World.

(** An entry that is not selected leaves no mark. *)
Lemma process_entries_skip (filename : string) (rest : list string)
  (acc : list dict) :
  Py.endswith filename ".csv" = false ->
  process_entries cfg w (filename :: rest) acc = process_entries cfg w rest acc.
Proof.
  intros Hsuffix. simpl. unfold process_entry. rewrite Hsuffix.
  apply bind_ret_l.
Qed.

(** A selected entry without a peak: nothing is appended and the loop
    goes on with the entries that remain. *)
Lemma process_entries_failed (filename : string) (rest : list string)
  (acc : list dict) (t : list event) :
  Py.endswith filename ".csv" = true ->
  analyze_single_pl_file cfg w (Py.path_join (RAW_PL_DATA_FOLDER cfg) filename)
  = (t, inr (None, None)) ->
  process_entries cfg w (filename :: rest) acc
  = ((Printed (processing_line filename) :: t
        ++ Printed (failed_line filename)
        :: trace (process_entries cfg w rest acc))%list,
     outcome (process_entries cfg w rest acc)).
Proof.
  intros Hsuffix Hpeak. simpl. unfold process_entry. rewrite Hsuffix.
  unfold bind at 2. unfold print. unfold bind at 2. rewrite Hpeak.
  destruct (process_entries cfg w rest acc) as [t' r'] eqn:Hrest.
  unfold bind, print, ret; simpl; rewrite Hrest; simpl.
  rewrite <- !app_assoc; reflexivity.
Qed.

(** A selected entry with a peak of two floats: one record is appended. *)
Lemma process_entries_extracted (filename : string) (rest : list string)
  (acc : list dict) (t : list event) (peak_w peak_i : float64) :
  Py.endswith filename ".csv" = true ->
  analyze_single_pl_file cfg w (Py.path_join (RAW_PL_DATA_FOLDER cfg) filename)
  = (t, inr (Some (PyFloat peak_w), Some (PyFloat peak_i))) ->
  let acc' :=
    (acc ++ [peak_record (get_sample_id_from_filename filename)
               (PyFloat peak_w) (PyFloat peak_i)])%list in
  process_entries cfg w (filename :: rest) acc
  = ((Printed (processing_line filename) :: t
        ++ PrintedPeak peak_w peak_i
        :: trace (process_entries cfg w rest acc'))%list,
     outcome (process_entries cfg w rest acc')).
Proof.
  intros Hsuffix Hpeak acc'. simpl. unfold process_entry. rewrite Hsuffix.
  unfold bind at 2. unfold print. unfold bind at 2. rewrite Hpeak.
  fold acc'.
  destruct (process_entries cfg w rest acc') as [t' r'] eqn:Hrest.
  unfold bind, print_peak, ret; simpl. rewrite Hrest. simpl.
  rewrite <- !app_assoc. reflexivity.
Qed.

(** A selected entry with a Series for a peak: the print of the peak
    raises and the loop ends there. *)
Lemma process_entries_aborted (filename : string) (rest : list string)
  (acc : list dict) (t : list event) (peak_w peak_i : pyval) :
  Py.endswith filename ".csv" = true ->
  analyze_single_pl_file cfg w (Py.path_join (RAW_PL_DATA_FOLDER cfg) filename)
  = (t, inr (Some peak_w, Some peak_i)) ->
  scalar_or_none (inr (Some peak_w, Some peak_i)) = false ->
  process_entries cfg w (filename :: rest) acc
  = ((Printed (processing_line filename) :: t)%list, inl format_error).
Proof.
  intros Hsuffix Hpeak Hseries. simpl. unfold process_entry. rewrite Hsuffix.
  unfold bind at 2. unfold print. unfold bind at 2. rewrite Hpeak.
  unfold bind, print_peak, raise, ret, format_error.
  destruct peak_w as [x|xs], peak_i as [y|ys]; try discriminate;
    simpl; now rewrite !app_nil_r.
Qed.

(** The four ways the loop deals with its first entry. *)
Lemma process_entries_step (filename : string) (rest : list string)
  (acc : list dict) :
  (Py.endswith filename ".csv" = false /\
   process_entries cfg w (filename :: rest) acc = process_entries cfg w rest acc) \/
  (Py.endswith filename ".csv" = true /\
   analysis_of cfg w filename = inr (None, None) /\
   process_entries cfg w (filename :: rest) acc
   = ((Printed (processing_line filename)
         :: trace (analyze_single_pl_file cfg w
                     (Py.path_join (RAW_PL_DATA_FOLDER cfg) filename))
         ++ Printed (failed_line filename)
         :: trace (process_entries cfg w rest acc))%list,
      outcome (process_entries cfg w rest acc))) \/
  (exists peak_w peak_i,
      Py.endswith filename ".csv" = true /\
      analysis_of cfg w filename = inr (Some (PyFloat peak_w), Some (PyFloat peak_i)) /\
      process_entries cfg w (filename :: rest) acc
      = ((Printed (processing_line filename)
            :: trace (analyze_single_pl_file cfg w
                        (Py.path_join (RAW_PL_DATA_FOLDER cfg) filename))
            ++ PrintedPeak peak_w peak_i
            :: trace (process_entries cfg w rest
                        (acc ++ [peak_record (get_sample_id_from_filename filename)
                                   (PyFloat peak_w) (PyFloat peak_i)])))%list,
         outcome (process_entries cfg w rest
                    (acc ++ [peak_record (get_sample_id_from_filename filename)
                               (PyFloat peak_w) (PyFloat peak_i)])))) \/
  (Py.endswith filename ".csv" = true /\
   scalar_or_none (analysis_of cfg w filename) = false /\
   process_entries cfg w (filename :: rest) acc
   = ((Printed (processing_line filename)
         :: trace (analyze_single_pl_file cfg w
                     (Py.path_join (RAW_PL_DATA_FOLDER cfg) filename)))%list,
      inl format_error)).
Proof.
  destruct (Py.endswith filename ".csv") eqn:Hsuffix.
  2:{ left. split; [reflexivity|]. now apply process_entries_skip. }
  right. unfold analysis_of.
  pose proof (M_eta (analyze_single_pl_file cfg w
                (Py.path_join (RAW_PL_DATA_FOLDER cfg) filename))) as Heta.
  destruct (analyze_outcome cfg w (Py.path_join (RAW_PL_DATA_FOLDER cfg) filename))
    as [Hnone|[peak_w [peak_i Hpeak]]].
  - left. rewrite Hnone in Heta |- *. split; [reflexivity|]. split; [reflexivity|].
    now apply process_entries_failed.
  - rewrite Hpeak in Heta |- *. right.
    destruct (scalar_or_none (inr (Some peak_w, Some peak_i))) eqn:Hscalar.
    + left. destruct peak_w as [x|xs], peak_i as [y|ys]; try discriminate.
      exists x, y. split; [reflexivity|]. split; [reflexivity|].
      now apply process_entries_extracted.
    + right. split; [reflexivity|]. split; [reflexivity|].
      now apply (process_entries_aborted filename rest acc _ peak_w peak_i).
Qed.

End LoopFacts.

(* ===================================================================== *)
(** ** What a run prints and writes *)
(* ===================================================================== *)

Lemma prefix_empty (s : string) : prefix "" s = true.
Proof. now destruct s. Qed.

Lemma prefix_app (a b : string) : prefix a (a ++ b) = true.
Proof.
  induction a as [|c a IH]; cbn [append prefix]; [apply prefix_empty|].
  destruct (ascii_dec c c); [assumption | contradiction].
Qed.

Section RunFacts.

Context {pd : Pandas}.
Variable cfg : Config.
Variable w : World.

Lemma writes_app (t1 t2 : list event) :
  writes (t1 ++ t2) = (writes t1 ++ writes t2)%list.
Proof. apply filter_app. Qed.

(** What [analyze_single_pl_file] prints: nothing, or one line that
    begins with two spaces. *)
Lemma analyze_trace (file_path : string) :
  trace (analyze_single_pl_file cfg w file_path) = [] \/
  exists text,
    trace (analyze_single_pl_file cfg w file_path) = [Printed ("  " ++ text)].
Proof.
  destruct (analyze_try_cases cfg w file_path)
    as [[e Htry]|[Htry|[peak_w [peak_i Htry]]]].
  - right. unfold analyze_single_pl_file, try_except. rewrite Htry.
    unfold analyze_except.
    destruct (is_FileNotFoundError e); [|destruct (is_EmptyDataError e)];
      cbn; now eexists.
  - right. rewrite (analyze_returned cfg w _ _ _ Htry). cbn. now eexists.
  - left. now rewrite (analyze_returned cfg w _ _ _ Htry).
Qed.

(** Reading a spectrum writes nothing and announces nothing. *)
Lemma analyze_silent (file_path : string) :
  writes (trace (analyze_single_pl_file cfg w file_path)) = [] /\
  filter is_progress (trace (analyze_single_pl_file cfg w file_path)) = [].
Proof.
  destruct (analyze_trace file_path) as [->|[text ->]]; now split.
Qed.

Lemma successful_records_skip (filename : string) (rest : list string) :
  Py.endswith filename ".csv" = false ->
  successful_records cfg w (filename :: rest) = successful_records cfg w rest.
Proof.
  intros Hsuffix. unfold successful_records, selected. cbn [filter].
  now rewrite Hsuffix.
Qed.

Lemma successful_records_selected (filename : string) (rest : list string) :
  Py.endswith filename ".csv" = true ->
  successful_records cfg w (filename :: rest)
  = (match analysis_of cfg w filename with
     | inr (Some (PyFloat peak_w), Some (PyFloat peak_i)) =>
         [peak_record (get_sample_id_from_filename filename)
            (PyFloat peak_w) (PyFloat peak_i)]
     | _ => []
     end ++ successful_records cfg w rest)%list.
Proof.
  intros Hsuffix. unfold successful_records, selected. cbn [filter].
  rewrite Hsuffix. reflexivity.
Qed.

Lemma selected_cons (filename : string) (rest : list string) :
  selected (filename :: rest)
  = if Py.endswith filename ".csv" then filename :: selected rest
    else selected rest.
Proof. reflexivity. Qed.

Lemma writes_of_entry (t rest : list event) (first mid : event) :
  is_write first = false -> is_write mid = false ->
  writes t = [] -> writes rest = [] ->
  writes (first :: t ++ mid :: rest) = [].
Proof.
  intros Hfirst Hmid Ht Hrest. unfold writes in *. cbn [filter].
  rewrite Hfirst, filter_app, Ht. cbn [filter app]. now rewrite Hmid.
Qed.

(** The loop writes no file. *)
Lemma process_entries_writes (filenames : list string) (acc : list dict) :
  writes (trace (process_entries cfg w filenames acc)) = [].
Proof.
  revert acc. induction filenames as [|filename rest IH]; intros acc;
    [reflexivity|].
  pose proof (proj1 (analyze_silent
                       (Py.path_join (RAW_PL_DATA_FOLDER cfg) filename))) as Hw.
  destruct (process_entries_step cfg w filename rest acc)
    as [[_ ->]|[[_ [_ ->]]|[[pw [pi [_ [_ ->]]]]|[_ [_ ->]]]]];
    rewrite ?trace_pair.
  - apply IH.
  - now apply writes_of_entry.
  - now apply writes_of_entry.
  - unfold writes in *. cbn [filter is_write]. exact Hw.
Qed.

(** When the loop ends normally, it ends with one record per selected
    file that gave a peak, in the order of the listing. *)
Lemma process_entries_records (filenames : list string) (acc rows : list dict) :
  outcome (process_entries cfg w filenames acc) = inr rows ->
  rows = (acc ++ successful_records cfg w filenames)%list /\
  scalar_peaks cfg w filenames = true.
Proof.
  revert acc. induction filenames as [|filename rest IH]; intros acc.
  - cbn. intros H. inversion H. now rewrite app_nil_r.
  - unfold scalar_peaks. rewrite selected_cons. fold (scalar_peaks cfg w rest).
    destruct (process_entries_step cfg w filename rest acc)
      as [[Hs ->]|[[Hs [Ha ->]]|[[pw [pi [Hs [Ha ->]]]]|[Hs [Ha ->]]]]];
      rewrite ?outcome_pair, Hs.
    + rewrite (successful_records_skip filename rest Hs). apply IH.
    + rewrite (successful_records_selected filename rest Hs), Ha.
      cbn [forallb]. rewrite Ha. cbn [scalar_or_none andb app]. apply IH.
    + rewrite (successful_records_selected filename rest Hs), Ha.
      cbn [forallb]. rewrite Ha. cbn [scalar_or_none andb].
      intros H. destruct (IH _ H) as [-> Hsc]. split; [|assumption].
      now rewrite <- app_assoc.
    + discriminate.
Qed.

(** Without a Series among the peaks the loop ends normally. *)
Lemma process_entries_scalar (filenames : list string) (acc : list dict) :
  scalar_peaks cfg w filenames = true ->
  outcome (process_entries cfg w filenames acc)
  = inr (acc ++ successful_records cfg w filenames)%list.
Proof.
  revert acc. induction filenames as [|filename rest IH]; intros acc.
  - cbn. now rewrite app_nil_r.
  - unfold scalar_peaks. rewrite selected_cons. fold (scalar_peaks cfg w rest).
    destruct (process_entries_step cfg w filename rest acc)
      as [[Hs ->]|[[Hs [Ha ->]]|[[pw [pi [Hs [Ha ->]]]]|[Hs [Ha ->]]]]];
      rewrite ?outcome_pair, Hs.
    + rewrite (successful_records_skip filename rest Hs). apply IH.
    + rewrite (successful_records_selected filename rest Hs), Ha.
      cbn [forallb]. rewrite Ha. cbn [scalar_or_none andb app]. apply IH.
    + rewrite (successful_records_selected filename rest Hs), Ha.
      cbn [forallb]. rewrite Ha. cbn [scalar_or_none andb].
      intros H. rewrite (IH _ H). now rewrite <- app_assoc.
    + cbn [forallb]. rewrite Ha. discriminate.
Qed.

(** The progress lines of a loop that ends normally are those of the
    selected entries, in the order of the listing. *)
Lemma process_entries_progress (filenames : list string) (acc rows : list dict) :
  outcome (process_entries cfg w filenames acc) = inr rows ->
  filter is_progress (trace (process_entries cfg w filenames acc))
  = map (fun filename => Printed (processing_line filename)) (selected filenames).
Proof.
  revert acc. induction filenames as [|filename rest IH]; intros acc;
    [reflexivity|].
  pose proof (proj2 (analyze_silent
                       (Py.path_join (RAW_PL_DATA_FOLDER cfg) filename))) as Hq.
  assert (Hline : is_progress (Printed (processing_line filename)) = true).
  { unfold is_progress, processing_line. apply prefix_app. }
  rewrite selected_cons.
  destruct (process_entries_step cfg w filename rest acc)
    as [[Hs ->]|[[Hs [_ ->]]|[[pw [pi [Hs [_ ->]]]]|[Hs [_ ->]]]]];
    rewrite ?outcome_pair, ?trace_pair, Hs.
  - apply IH.
  - intros H. cbn [filter map]. rewrite Hline, filter_app, Hq.
    cbn [filter app is_progress failed_line append prefix].
    destruct (ascii_dec "P" " "); [discriminate|]. f_equal. now apply IH.
  - intros H. cbn [filter map]. rewrite Hline, filter_app, Hq.
    cbn [filter app is_progress]. f_equal. now apply (IH _ H).
  - discriminate.
Qed.

(** What a loop that ends normally has printed: for each selected
    entry, in the order of the listing, what the loop body prints for
    it, and nothing else. *)
Lemma process_entries_trace (filenames : list string) (acc rows : list dict) :
  outcome (process_entries cfg w filenames acc) = inr rows ->
  trace (process_entries cfg w filenames acc)
  = flat_map (entry_events cfg w) (selected filenames).
Proof.
  revert acc. induction filenames as [|filename rest IH]; intros acc;
    [reflexivity|].
  rewrite selected_cons.
  destruct (process_entries_step cfg w filename rest acc)
    as [[Hs ->]|[[Hs [Ha ->]]|[[pw [pi [Hs [Ha ->]]]]|[Hs [_ ->]]]]];
    rewrite ?outcome_pair, ?trace_pair, Hs.
  - apply IH.
  - intros H. cbn [flat_map]. unfold entry_events at 1. rewrite Ha.
    rewrite (IH _ H). cbn [app]. now rewrite <- app_assoc.
  - intros H. cbn [flat_map]. unfold entry_events at 1. rewrite Ha.
    rewrite (IH _ H). cbn [app]. now rewrite <- app_assoc.
  - discriminate.
Qed.

End RunFacts.

(* ===================================================================== *)
(** ** The run and what it saves *)
(* ===================================================================== *)

Section SaveFacts.

Context {pd : Pandas}.
Variable cfg : Config.
Variable w : World.

(** The records of the loop are the dicts of [peak_record]. *)
Lemma successful_records_keys (filenames : list string) :
  Forall (fun d : dict => map fst d = output_columns)
         (successful_records cfg w filenames).
Proof.
  unfold successful_records. induction (selected filenames) as [|f fs IH].
  - constructor.
  - cbn [flat_map]. apply Forall_app. split; [|assumption].
    destruct (analysis_of cfg w f) as [e|[[[x|xs]|] [[y|ys]|]]];
      repeat constructor.
Qed.

Lemma columns_fixed_from (data : list dict) :
  Forall (fun d : dict => map fst d = output_columns) data ->
  fold_left (fun seen (d : dict) => add_keys seen (map fst d)) data output_columns
  = output_columns.
Proof.
  induction data as [|d data IH]; intros Hkeys; [reflexivity|].
  inversion Hkeys as [|? ? Hd Hrest]; subst. cbn [fold_left]. rewrite Hd.
  change (add_keys output_columns output_columns) with output_columns.
  now apply IH.
Qed.

(** The frame of a non-empty list of peak records has the three fixed
    columns, in their order. *)
Lemma mkDataFrame_peaks (data : list dict) :
  data <> [] ->
  Forall (fun d : dict => map fst d = output_columns) data ->
  mkDataFrame data = {| columns := output_columns; records := data |}.
Proof.
  intros Hne Hkeys. unfold mkDataFrame. f_equal.
  destruct data as [|d data]; [contradiction|].
  inversion Hkeys as [|? ? Hd Hrest]; subst. cbn [fold_left]. rewrite Hd.
  change (add_keys [] output_columns) with output_columns.
  now apply columns_fixed_from.
Qed.

(** The run when the directory cannot be listed. *)
Lemma main_not_listed (e : exn) :
  listdir w (RAW_PL_DATA_FOLDER cfg) = inl e ->
  main cfg w
  = ([Printed "--- Starting PL Peak Extractor Script ---";
      Printed (String Py.NL "Scanning raw PL files in: " ++ RAW_PL_DATA_FOLDER cfg)],
     inl e).
Proof.
  intros Hlist. unfold main, bind, print, lift. now rewrite Hlist.
Qed.

(** The run when the loop ends with an exception. *)
Lemma main_aborted (filenames : list string) (e : exn) :
  listdir w (RAW_PL_DATA_FOLDER cfg) = inr filenames ->
  outcome (process_entries cfg w filenames []) = inl e ->
  outcome (main cfg w) = inl e /\ writes (trace (main cfg w)) = [].
Proof.
  intros Hlist Hloop. unfold main, bind, print, lift. rewrite Hlist.
  pose proof (process_entries_writes cfg w filenames []) as Hwr.
  destruct (process_entries cfg w filenames []) as [t r].
  rewrite outcome_pair in Hloop. rewrite trace_pair in Hwr. subst r.
  cbn [app trace outcome fst snd]. split; [reflexivity|].
  cbn [writes filter is_write]. exact Hwr.
Qed.

(** The run once the directory is listed and the loop has ended
    normally. *)
Lemma main_listed (filenames : list string) (rows : list dict) :
  listdir w (RAW_PL_DATA_FOLDER cfg) = inr filenames ->
  outcome (process_entries cfg w filenames []) = inr rows ->
  outcome (main cfg w) = outcome (save_results cfg w rows) /\
  writes (trace (main cfg w)) = writes (trace (save_results cfg w rows)) /\
  (forall e, In e (trace (save_results cfg w rows)) -> In e (trace (main cfg w))) /\
  (forall e, In e (trace (process_entries cfg w filenames []))
             -> In e (trace (main cfg w))).
Proof.
  intros Hlist Hloop. unfold main, bind, print, lift. rewrite Hlist.
  pose proof (process_entries_writes cfg w filenames []) as Hwr.
  destruct (process_entries cfg w filenames []) as [t r].
  rewrite outcome_pair in Hloop. rewrite trace_pair in Hwr |- *. subst r.
  cbn [app].
  destruct (save_results cfg w rows) as [t' r'].
  unfold outcome, trace. cbn [fst snd app].
  split; [reflexivity|]. split; [|split].
  - cbn [writes filter is_write]. fold (writes (t ++ t')).
    now rewrite writes_app, Hwr.
  - intros e He. right. right. apply in_or_app. now right.
  - intros e He. right. right. apply in_or_app. now left.
Qed.

Lemma save_nothing :
  save_results cfg w [] = ([Printed nothing_extracted], inr tt).
Proof. reflexivity. Qed.

Lemma save_csv (data : list dict) :
  data <> [] ->
  OUTPUT_FILE_TYPE cfg = "csv" ->
  to_csv_error w (OUTPUT_PEAK_DATA_FILE cfg) = None ->
  outcome (save_results cfg w data) = inr tt /\
  writes (trace (save_results cfg w data))
  = [WroteCsv (OUTPUT_PEAK_DATA_FILE cfg) (mkDataFrame data)].
Proof.
  intros Hne Htype Hcsv. destruct data as [|d data]; [contradiction|].
  unfold save_results, to_csv, bind, print, ret. rewrite Htype, Hcsv.
  split; reflexivity.
Qed.

Lemma save_excel_ok (data : list dict) :
  data <> [] ->
  OUTPUT_FILE_TYPE cfg = "excel" ->
  to_excel_raises w (OUTPUT_PEAK_DATA_FILE cfg) = None ->
  outcome (save_results cfg w data) = inr tt /\
  writes (trace (save_results cfg w data))
  = [WroteExcel (OUTPUT_PEAK_DATA_FILE cfg) "PL_Peaks" (mkDataFrame data)].
Proof.
  intros Hne Htype Hxl. destruct data as [|d data]; [contradiction|].
  unfold save_results, save_excel, try_except, to_excel, bind, print, ret.
  rewrite Htype, Hxl. split; reflexivity.
Qed.



Lemma save_other_type (data : list dict) :
  data <> [] ->
  OUTPUT_FILE_TYPE cfg <> "csv" ->
  OUTPUT_FILE_TYPE cfg <> "excel" ->
  outcome (save_results cfg w data) = inr tt /\
  writes (trace (save_results cfg w data)) = [] /\
  In (Printed ("Consolidated data saved to: " ++ OUTPUT_PEAK_DATA_FILE cfg))
     (trace (save_results cfg w data)).
Proof.
  intros Hne Hcsv Hxl. destruct data as [|d data]; [contradiction|].
  unfold save_results, bind, print, ret.
  destruct (String.eqb_spec (OUTPUT_FILE_TYPE cfg) "csv"); [contradiction|].
  destruct (String.eqb_spec (OUTPUT_FILE_TYPE cfg) "excel"); [contradiction|].
  split; [reflexivity|]. split; [reflexivity|].
  right. right. now left.
Qed.

Lemma save_writes_at_most_one (data : list dict) :
  List.length (writes (trace (save_results cfg w data))) <= 1.
Proof.
  destruct data as [|d data]; [cbn; lia|].
  unfold save_results, save_excel, try_except, to_excel, to_csv, bind, print,
    ret, raise.
  destruct (String.eqb (OUTPUT_FILE_TYPE cfg) "csv").
  - destruct (to_csv_error w (OUTPUT_PEAK_DATA_FILE cfg)); cbn; lia.
  - destruct (String.eqb (OUTPUT_FILE_TYPE cfg) "excel"); [|cbn; lia].
    destruct (to_excel_raises w (OUTPUT_PEAK_DATA_FILE cfg)) as [e|]; [|cbn; lia].
    destruct (is_ImportError e); [|cbn; lia].
    destruct (to_csv_error w (fallback_path cfg)); cbn; lia.
Qed.

End SaveFacts.

(* ===================================================================== *)
(** ** The order of the example numbers *)
(* ===================================================================== *)

Lemma gtD_order : StrictWeakOrder Reference.gtD.
Proof.
  constructor.
  - intros [|a|]; cbn; try reflexivity.
    apply negb_false_iff. apply Qle_bool_iff. apply Qle_refl.
  - intros [|a|] [|b|] [|c|]; cbn; try discriminate; try reflexivity.
    intros Hab Hbc.
    apply negb_true_iff in Hab, Hbc. apply negb_true_iff.
    destruct (Qle_bool a c) eqn:Hac; [|reflexivity].
    apply Qle_bool_iff in Hac.
    assert (Hba : (b < a)%Q).
    { apply Qnot_le_lt. intros H. apply Qle_bool_iff in H. congruence. }
    assert (Hcb : (c < b)%Q).
    { apply Qnot_le_lt. intros H. apply Qle_bool_iff in H. congruence. }
    exfalso. apply (Qlt_not_le c a); [|assumption].
    now apply (Qlt_trans c b a).
  - intros [|a|] [|b|] [|c|]; cbn; try discriminate; try reflexivity.
    intros Hab Hbc.
    apply negb_false_iff in Hab, Hbc. apply negb_false_iff.
    apply Qle_bool_iff in Hab, Hbc. apply Qle_bool_iff.
    now apply (Qle_trans a b c).
Qed.

(* ===================================================================== *)
(** ** The peak of one file *)
(* ===================================================================== *)

Section PeakFacts.

Context {pd : Pandas}.
Variable cfg : Config.
Variable w : World.

Lemma label_eqb_refl (key_refl : forall k : key, key_eqb k k = true) (l : label) :
  label_eqb l l = true.
Proof. destruct l as [i|k]; cbn; [apply Nat.eqb_refl | apply key_refl]. Qed.

(** A frame that gives two floats gives the row the scan stops at. *)
Lemma peak_of_frame_scalar (key_refl : forall k : key, key_eqb k k = true)
  (file_path : string) (df : spectrum float64) (t : list event)
  (x y : float64) :
  peak_of_frame file_path df = (t, inr (Some (PyFloat x), Some (PyFloat y))) ->
  exists r rows, df = r :: rows /\ point_of (scan_row r rows) = (x, y).
Proof.
  destruct df as [|r rows]; [discriminate|].
  intros Hpeak. exists r, rows. split; [reflexivity|].
  unfold peak_of_frame in Hpeak.
  assert (Hin : In (scan_row r rows)
                   (rows_at (r :: rows) (label_of (scan_row r rows)))).
  { unfold rows_at. apply filter_In. split; [apply scan_row_in|].
    now apply label_eqb_refl. }
  destruct (rows_at (r :: rows) (label_of (scan_row r rows)))
    as [|row [|row' found]]; [contradiction| |discriminate].
  destruct Hin as [<-|[]]. inversion Hpeak. reflexivity.
Qed.

(** The analysis of a file whose frame leaves no row. *)
Lemma analyze_no_points (file_path : string) (lines : list string) (n : nat)
  (frame : RawFrame key) :
  read_lines w file_path = inr lines ->
  find_header_line cfg lines 0 = Some n ->
  read_csv lines n = inr frame ->
  parsed_points (frame_cells frame) = [] ->
  analyze_single_pl_file cfg w file_path
  = ([Printed (no_data_warning file_path)], inr (None, None)).
Proof.
  intros Hread Hhead Hcsv Hpts.
  rewrite (analyze_frame cfg w file_path lines n frame Hread Hhead Hcsv).
  pose proof (dropna_points frame) as Hmap. rewrite Hpts in Hmap.
  destruct (dropna (coerce_columns (with_index frame))); [reflexivity|discriminate].
Qed.

Lemma first_max_in (pts : list (float64 * float64)) (best : float64 * float64) :
  In (first_max best pts) (best :: pts).
Proof.
  revert best. induction pts as [|p pts IH]; intros best; cbn [first_max].
  - now left.
  - destruct (gt (snd p) (snd best)).
    + right. apply IH.
    + destruct (IH best) as [H|H]; [now left | now right; right].
Qed.

End PeakFacts.

(** C1. The code does not return the first maximum for every file with
    a valid numeric row.  The file [spectrum_G] has a third, leading
    column; [read_csv] is given two names and takes that column as the
    row labels, which repeat.  Its valid numeric rows are (500, 10) and
    (510, 55.2), but [.loc] finds both rows under the label of the
    maximum, and [analyze_single_pl_file] returns the two columns of both
    rows, not the pair (510, 55.2). *)
Theorem labelled_rows_give_no_peak :
  @read_csv Reference.pandas Examples.spectrum_G 0
  = inr (Keyed [(["sample"], ("lambda [nm]", "intensity [a.u.]"));
                (["G"], ("500.0", "10.0"));
                (["G"], ("510.0", "55.2"))]) /\
  @parsed_points Reference.pandas
    [("lambda [nm]", "intensity [a.u.]"); ("500.0", "10.0"); ("510.0", "55.2")]
  = [(Examples.num 500 1, Examples.num 10 1);
     (Examples.num 510 1, Examples.num 276 5)] /\
  @first_max Reference.pandas (Examples.num 500 1, Examples.num 10 1)
    [(Examples.num 510 1, Examples.num 276 5)]
  = (Examples.num 510 1, Examples.num 276 5) /\
  @analyze_single_pl_file Reference.pandas script_config Examples.lab_labelled
    "PL_Spectra_Raw/G.csv"
  = ([], inr (Some (@PySeries Reference.pandas
                      [Examples.num 500 1; Examples.num 510 1]),
              Some (@PySeries Reference.pandas
                      [Examples.num 10 1; Examples.num 276 5]))).
Proof. repeat split; reflexivity. Qed.

(** C10. [analyze_single_pl_file] never raises and never returns a pair
    with exactly one None, but a pair without None is not always a pair
    of two numbers: for the file [spectrum_G], whose rows share a label,
    both components are a Series, and the print of the peak in the batch
    loop then raises TypeError, which ends the run before the next file
    is read and before anything is written. *)
Theorem analyze_total_but_not_numeric :
  (forall (pd : Pandas) (cfg : Config) (w : World) (file_path : string),
      outcome (analyze_single_pl_file cfg w file_path) = inr (None, None) \/
      exists peak_w peak_i,
        outcome (analyze_single_pl_file cfg w file_path)
        = inr (Some peak_w, Some peak_i)) /\
  (exists xs ys,
      outcome (@analyze_single_pl_file Reference.pandas script_config
                 Examples.lab_labelled "PL_Spectra_Raw/G.csv")
      = inr (Some (PySeries xs), Some (PySeries ys))) /\
  @main Reference.pandas script_config Examples.lab_labelled
  = ([Printed "--- Starting PL Peak Extractor Script ---";
      Printed (String Py.NL "Scanning raw PL files in: PL_Spectra_Raw");
      Printed "Processing 'G.csv' (Sample ID: G)..."],
     inl format_error).
Proof.
  split; [|split].
  - intros pd cfg w file_path. apply analyze_outcome.
  - eexists; eexists. reflexivity.
  - reflexivity.
Qed.

(** X16. For a file read under the default index (no more fields in its
    first record than names), and with at least one valid numeric row,
    [analyze_single_pl_file] returns a parsed point as two floats: no
    parsed intensity is greater than its intensity (it is the maximum),
    and every parsed point before it in file order has a smaller
    intensity (it is the first point that reaches the maximum). *)
Theorem peak_is_first_maximum {pd : Pandas} (gt_order : StrictWeakOrder gt)
  (cfg : Config) (w : World) (file_path : string) (lines : list string)
  (n : nat) (cells : list (string * string)) :
  read_lines w file_path = inr lines ->
  find_header_line cfg lines 0 = Some n ->
  read_csv lines n = inr (Ranged cells) ->
  parsed_points cells <> [] ->
  exists k peak_w peak_i,
    outcome (analyze_single_pl_file cfg w file_path)
    = inr (Some (PyFloat peak_w), Some (PyFloat peak_i)) /\
    nth_error (parsed_points cells) k = Some (peak_w, peak_i) /\
    (forall j q, nth_error (parsed_points cells) j = Some q ->
                 gt (snd q) peak_i = false) /\
    (forall j q, j < k -> nth_error (parsed_points cells) j = Some q ->
                 gt peak_i (snd q) = true).
Proof.
  intros Hread Hhead Hcsv Hpts.
  rewrite (analyze_frame cfg w file_path lines n _ Hread Hhead Hcsv).
  pose proof (dropna_points_ranged cells 0) as Hmap.
  cbn [with_index].
  pose proof (rows_at_ranged cells 0) as Hat.
  destruct (dropna (coerce_columns (index_from 0 cells))) as [|r rows] eqn:Hdf.
  - exfalso. apply Hpts. now rewrite <- Hmap.
  - destruct (scan_row_first_max gt_order r rows) as [k [Hk [Hmax Hfirst]]].
    exists k, (fst (point_of (scan_row r rows))), (snd (point_of (scan_row r rows))).
    unfold peak_of_frame. rewrite (Hat (scan_row r rows) (scan_row_in rows r)).
    rewrite <- Hmap.
    split; [reflexivity|]. split; [|split].
    + rewrite nth_error_map, Hk. reflexivity.
    + intros j q Hj. rewrite nth_error_map in Hj.
      destruct (nth_error (r :: rows) j) as [r'|] eqn:Hr'; [|discriminate].
      inversion Hj; subst q. apply (Hmax j r' Hr').
    + intros j q Hlt Hj. rewrite nth_error_map in Hj.
      destruct (nth_error (r :: rows) j) as [r'|] eqn:Hr'; [|discriminate].
      inversion Hj; subst q. apply (Hfirst j r' Hlt Hr').
Qed.

(** The spectrum of sample A has its maximum 55.2 twice, at 510 and at
    520: the peak is the first of the two. *)
Lemma peak_is_first_maximum_witness :
  exists k peak_w peak_i,
    outcome (@analyze_single_pl_file Reference.pandas script_config Examples.lab
               "PL_Spectra_Raw/A.csv")
    = inr (Some (PyFloat peak_w), Some (PyFloat peak_i)) /\
    nth_error [(Examples.num 500 1, Examples.num 10 1);
               (Examples.num 510 1, Examples.num 276 5);
               (Examples.num 520 1, Examples.num 276 5)] k
    = Some (peak_w, peak_i) /\
    (forall j q,
        nth_error [(Examples.num 500 1, Examples.num 10 1);
                   (Examples.num 510 1, Examples.num 276 5);
                   (Examples.num 520 1, Examples.num 276 5)] j
        = Some q -> Reference.gtD (snd q) peak_i = false) /\
    (forall j q, j < k ->
        nth_error [(Examples.num 500 1, Examples.num 10 1);
                   (Examples.num 510 1, Examples.num 276 5);
                   (Examples.num 520 1, Examples.num 276 5)] j
        = Some q -> Reference.gtD peak_i (snd q) = true).
Proof.
  apply (@peak_is_first_maximum Reference.pandas gtD_order script_config
           Examples.lab "PL_Spectra_Raw/A.csv" Examples.spectrum_A 2
           [("lambda [nm]", "intensity [a.u.]"); ("500.0", "10.0");
            ("510.0", "55.2"); ("520.0", "55.2")]).
  - reflexivity.
  - reflexivity.
  - reflexivity.
  - discriminate.
Defined.

(** X17. Whatever index the file is read under: when
    [analyze_single_pl_file] returns two floats, they are the first
    point of maximum intensity among the valid numeric rows of the
    file. *)
Theorem scalar_peak_is_first_maximum {pd : Pandas}
  (gt_order : StrictWeakOrder gt)
  (key_refl : forall k : key, key_eqb k k = true)
  (cfg : Config) (w : World) (file_path : string) (lines : list string)
  (n : nat) (frame : RawFrame key) (peak_w peak_i : float64) :
  read_lines w file_path = inr lines ->
  find_header_line cfg lines 0 = Some n ->
  read_csv lines n = inr frame ->
  outcome (analyze_single_pl_file cfg w file_path)
  = inr (Some (PyFloat peak_w), Some (PyFloat peak_i)) ->
  exists k,
    nth_error (parsed_points (frame_cells frame)) k = Some (peak_w, peak_i) /\
    (forall j q, nth_error (parsed_points (frame_cells frame)) j = Some q ->
                 gt (snd q) peak_i = false) /\
    (forall j q, j < k ->
                 nth_error (parsed_points (frame_cells frame)) j = Some q ->
                 gt peak_i (snd q) = true).
Proof.
  intros Hread Hhead Hcsv.
  rewrite (analyze_frame cfg w file_path lines n _ Hread Hhead Hcsv).
  rewrite <- (dropna_points frame).
  destruct (peak_of_frame file_path (dropna (coerce_columns (with_index frame))))
    as [t [e|r]] eqn:Hpeak.
  - unfold try_except.
    destruct (analyze_except_result file_path e) as [line ->].
    cbn. discriminate.
  - cbn. intros Hout. inversion Hout; subst r.
    destruct (peak_of_frame_scalar key_refl _ _ _ _ _ Hpeak)
      as [r [rows [-> Hpoint]]].
    destruct (scan_row_first_max gt_order r rows) as [k [Hk [Hmax Hfirst]]].
    assert (Hi : snd (scan_row r rows) = peak_i).
    { unfold point_of in Hpoint. now inversion Hpoint. }
    exists k. rewrite <- Hpoint, <- Hi. split; [|split].
    + rewrite nth_error_map, Hk. reflexivity.
    + intros j q Hj. rewrite nth_error_map in Hj.
      destruct (nth_error (r :: rows) j) as [r'|] eqn:Hr'; [|discriminate].
      inversion Hj; subst q. apply (Hmax j r' Hr').
    + intros j q Hlt Hj. rewrite nth_error_map in Hj.
      destruct (nth_error (r :: rows) j) as [r'|] eqn:Hr'; [|discriminate].
      inversion Hj; subst q. apply (Hfirst j r' Hlt Hr').
Qed.

Lemma fields_eqb_refl (labels : list string) :
  Reference.fields_eqb labels labels = true.
Proof.
  induction labels as [|x labels IH]; cbn; [reflexivity|].
  now rewrite String.eqb_refl, IH.
Qed.

(** A file whose rows are named r1, r2, r3: the peak is the row r2. *)
Lemma scalar_peak_is_first_maximum_witness :
  exists k,
    nth_error [(Examples.num 500 1, Examples.num 10 1);
               (Examples.num 510 1, Examples.num 276 5);
               (Examples.num 520 1, Examples.num 276 5)] k
    = Some (Examples.num 510 1, Examples.num 276 5) /\
    (forall j q,
        nth_error [(Examples.num 500 1, Examples.num 10 1);
                   (Examples.num 510 1, Examples.num 276 5);
                   (Examples.num 520 1, Examples.num 276 5)] j
        = Some q -> Reference.gtD (snd q) (Examples.num 276 5) = false) /\
    (forall j q, j < k ->
        nth_error [(Examples.num 500 1, Examples.num 10 1);
                   (Examples.num 510 1, Examples.num 276 5);
                   (Examples.num 520 1, Examples.num 276 5)] j
        = Some q -> Reference.gtD (Examples.num 276 5) (snd q) = true).
Proof.
  apply (@scalar_peak_is_first_maximum Reference.pandas gtD_order
           fields_eqb_refl script_config Examples.lab "PL_Spectra_Raw/H.csv"
           Examples.spectrum_H 0
           (Keyed [(["row"], ("lambda [nm]", "intensity [a.u.]"));
                   (["r1"], ("500.0", "10.0"));
                   (["r2"], ("510.0", "55.2"));
                   (["r3"], ("520.0", "55.2"))])
           (Examples.num 510 1) (Examples.num 276 5)).
  - reflexivity.
  - reflexivity.
  - reflexivity.
  - reflexivity.
Defined.

(* ===================================================================== *)
(** ** Files without a peak *)
(* ===================================================================== *)

Lemma append_assoc (a b c : string) : (a ++ b) ++ c = a ++ (b ++ c).
Proof. induction a as [|ch a IH]; simpl; [reflexivity | now rewrite IH]. Qed.

Lemma append_empty_r (s : string) : s ++ "" = s.
Proof. induction s as [|c s IH]; simpl; [reflexivity | now rewrite IH]. Qed.

(** C2. A selected file of which the frame has no valid numeric row:
    [analyze_single_pl_file] prints the warning and returns (None, None)
    without an exception, the loop body logs the failure, appends no
    record, and the loop goes on with the remaining entries. *)
Theorem no_valid_rows_is_skipped {pd : Pandas} (cfg : Config) (w : World)
  (filename : string) (rest : list string) (acc : list dict)
  (lines : list string) (n : nat) (frame : RawFrame key) :
  let file_path := Py.path_join (RAW_PL_DATA_FOLDER cfg) filename in
  Py.endswith filename ".csv" = true ->
  read_lines w file_path = inr lines ->
  find_header_line cfg lines 0 = Some n ->
  read_csv lines n = inr frame ->
  parsed_points (frame_cells frame) = [] ->
  analyze_single_pl_file cfg w file_path
  = ([Printed (no_data_warning file_path)], inr (None, None)) /\
  process_entries cfg w (filename :: rest) acc
  = (Printed (processing_line filename)
       :: Printed (no_data_warning file_path)
       :: Printed (failed_line filename)
       :: trace (process_entries cfg w rest acc),
     outcome (process_entries cfg w rest acc)).
Proof.
  intros file_path Hsuffix Hread Hhead Hcsv Hpts.
  pose proof (analyze_no_points cfg w file_path lines n frame Hread Hhead Hcsv Hpts)
    as Hrun.
  split; [assumption|].
  now rewrite (process_entries_failed cfg w filename rest acc _ Hsuffix Hrun).
Qed.

(** Sample B has a header line and no data row. *)
Lemma no_valid_rows_is_skipped_witness :
  @analyze_single_pl_file Reference.pandas script_config Examples.lab
    "PL_Spectra_Raw/B.csv"
  = ([Printed "  Warning: No valid numerical PL data found in PL_Spectra_Raw/B.csv."],
     inr (None, None)) /\
  @process_entries Reference.pandas script_config Examples.lab
    ["B.csv"; "A.csv"] []
  = (Printed "Processing 'B.csv' (Sample ID: B)..."
       :: Printed "  Warning: No valid numerical PL data found in PL_Spectra_Raw/B.csv."
       :: Printed "  Failed to extract peak for B."
       :: trace (@process_entries Reference.pandas script_config Examples.lab
                   ["A.csv"] []),
     outcome (@process_entries Reference.pandas script_config Examples.lab
                ["A.csv"] [])).
Proof.
  apply (@no_valid_rows_is_skipped Reference.pandas script_config Examples.lab
           "B.csv" ["A.csv"] [] Examples.spectrum_B 1
           (Ranged [("lambda [nm]", "intensity [a.u.]")]));
    reflexivity.
Defined.

(** C3. A selected file in which no line contains both column names: the
    [try] block raises the header-not-found error, whose message ends with
    the path of the file; the error is caught and printed,
    [analyze_single_pl_file] returns (None, None), the loop body logs the
    failure, appends no record, and the loop goes on with the remaining
    entries. *)
Theorem header_not_found_is_skipped {pd : Pandas} (cfg : Config) (w : World)
  (filename : string) (rest : list string) (acc : list dict)
  (lines : list string) :
  let file_path := Py.path_join (RAW_PL_DATA_FOLDER cfg) filename in
  let error_line :=
    "  Error processing " ++ file_path ++ ": "
      ++ exn_msg (header_not_found cfg file_path) in
  Py.endswith filename ".csv" = true ->
  read_lines w file_path = inr lines ->
  (forall line, In line lines ->
     andb (Py.str_in (PL_WAVELENGTH_COL_NAME cfg) line)
          (Py.str_in (PL_INTENSITY_COL_NAME cfg) line) = false) ->
  outcome (analyze_try cfg w file_path) = inl (header_not_found cfg file_path) /\
  (exists text, exn_msg (header_not_found cfg file_path) = text ++ file_path) /\
  analyze_single_pl_file cfg w file_path
  = ([Printed error_line], inr (None, None)) /\
  process_entries cfg w (filename :: rest) acc
  = (Printed (processing_line filename)
       :: Printed error_line
       :: Printed (failed_line filename)
       :: trace (process_entries cfg w rest acc),
     outcome (process_entries cfg w rest acc)).
Proof.
  intros file_path error_line Hsuffix Hread Hnone.
  assert (Htry : analyze_try cfg w file_path
                 = ([], inl (header_not_found cfg file_path))).
  { unfold analyze_try, bind, lift, raise. rewrite Hread.
    now rewrite (find_header_line_none cfg lines 0 Hnone). }
  assert (Hrun : analyze_single_pl_file cfg w file_path
                 = ([Printed error_line], inr (None, None))).
  { unfold analyze_single_pl_file, try_except. rewrite Htry. reflexivity. }
  split; [now rewrite Htry|]. split; [|split; [assumption|]].
  - exists ("Could not find data header '" ++ PL_WAVELENGTH_COL_NAME cfg ++ "\t"
              ++ PL_INTENSITY_COL_NAME cfg ++ "' in ").
    unfold header_not_found. simpl exn_msg.
    now rewrite !append_assoc.
  - now rewrite (process_entries_failed cfg w filename rest acc _ Hsuffix Hrun).
Qed.

(** Sample C has data and no header line. *)
Lemma header_not_found_is_skipped_witness :
  outcome (@analyze_try Reference.pandas script_config Examples.lab
             "PL_Spectra_Raw/C.csv")
  = inl (Exn ValueError
           "Could not find data header 'lambda [nm]\tintensity [a.u.]' in PL_Spectra_Raw/C.csv") /\
  (exists text,
      "Could not find data header 'lambda [nm]\tintensity [a.u.]' in PL_Spectra_Raw/C.csv"
      = text ++ "PL_Spectra_Raw/C.csv") /\
  @analyze_single_pl_file Reference.pandas script_config Examples.lab
    "PL_Spectra_Raw/C.csv"
  = ([Printed "  Error processing PL_Spectra_Raw/C.csv: Could not find data header 'lambda [nm]\tintensity [a.u.]' in PL_Spectra_Raw/C.csv"],
     inr (None, None)) /\
  @process_entries Reference.pandas script_config Examples.lab
    ["C.csv"; "A.csv"] []
  = (Printed "Processing 'C.csv' (Sample ID: C)..."
       :: Printed "  Error processing PL_Spectra_Raw/C.csv: Could not find data header 'lambda [nm]\tintensity [a.u.]' in PL_Spectra_Raw/C.csv"
       :: Printed "  Failed to extract peak for C."
       :: trace (@process_entries Reference.pandas script_config Examples.lab
                   ["A.csv"] []),
     outcome (@process_entries Reference.pandas script_config Examples.lab
                ["A.csv"] [])).
Proof.
  apply (@header_not_found_is_skipped Reference.pandas script_config
           Examples.lab "C.csv" ["A.csv"] [] Examples.spectrum_no_header).
  - reflexivity.
  - reflexivity.
  - intros line [<-|[<-|[]]]; reflexivity.
Defined.

(* ===================================================================== *)
(** ** Rows that are dropped *)
(* ===================================================================== *)








(* ===================================================================== *)
(** ** File names *)
(* ===================================================================== *)

Section FileNames.

Lemma endswith_iff (s suffix : string) :
  Py.endswith s suffix = true <-> exists stem, s = stem ++ suffix.
Proof.
  split.
  - induction s as [|c s IH]; cbn [Py.endswith].
    + destruct (String.eqb_spec "" suffix) as [<-|_]; [|discriminate].
      intros _. now exists "".
    + destruct (String.eqb_spec (String c s) suffix) as [<-|_].
      * intros _. now exists "".
      * intros H. destruct (IH H) as [stem ->]. now exists (String c stem).
  - intros [stem ->]. induction stem as [|c stem IH]; cbn [append].
    + destruct suffix; cbn [Py.endswith]; now rewrite String.eqb_refl.
    + cbn [Py.endswith]. rewrite IH. now destruct (String.eqb _ _).
Qed.

Lemma str_in_char_cons (c a : ascii) (s : string) :
  Py.str_in (String c "") (String a s)
  = if ascii_dec c a then true else Py.str_in (String c "") s.
Proof.
  cbn [Py.str_in prefix]. destruct (ascii_dec c a); [|reflexivity].
  now rewrite prefix_empty.
Qed.

Lemma rfind_absent (c : ascii) (s : string) :
  Py.str_in (String c "") s = false -> Py.rfind c s = (-1)%Z.
Proof.
  induction s as [|a s IH]; [reflexivity|].
  rewrite str_in_char_cons. cbn [Py.rfind].
  destruct (ascii_dec c a) as [E|Hne]; [discriminate|].
  intros H. rewrite (IH H). cbn.
  destruct (Ascii.eqb_spec a c) as [E|_]; [now subst | reflexivity].
Qed.

Lemma no_sep_csv (stem : string) :
  Py.str_in "/" stem = false -> Py.str_in "/" (stem ++ ".csv") = false.
Proof.
  induction stem as [|a stem IH]; [reflexivity|].
  cbn [append]. rewrite !str_in_char_cons.
  destruct (ascii_dec "/" a); [discriminate | apply IH].
Qed.

Lemma rfind_dot_csv (stem : string) :
  Py.rfind "." (stem ++ ".csv") = Z.of_nat (String.length stem).
Proof.
  induction stem as [|c stem IH].
  - reflexivity.
  - cbn [append Py.rfind String.length]. rewrite IH.
    destruct (Z.leb_spec 0 (Z.of_nat (String.length stem))); lia.
Qed.

Lemma has_non_dot_shift (a : ascii) (p : string) (i n : nat) :
  Py.has_non_dot (String a p) (S i) n = Py.has_non_dot p i n.
Proof.
  revert i. induction n as [|n IH]; intros i; simpl; [reflexivity|].
  destruct (get i p) as [c|]; [|reflexivity].
  destruct (Ascii.eqb c "."); [apply IH | reflexivity].
Qed.

Lemma has_non_dot_stem (stem rest : string) :
  Py.has_non_dot (stem ++ rest) 0 (String.length stem) = negb (only_dots stem).
Proof.
  induction stem as [|c stem IH]; simpl; [reflexivity|].
  destruct (Ascii.eqb c "."); [|reflexivity].
  now rewrite has_non_dot_shift.
Qed.

Lemma substring_stem (stem rest : string) :
  substring 0 (String.length stem) (stem ++ rest) = stem.
Proof.
  induction stem as [|c stem IH]; simpl.
  - now destruct rest.
  - now rewrite IH.
Qed.

(** [splitext] on a name that ends with [.csv] and has no separator. *)
Lemma sample_id_of_csv (stem : string) :
  Py.str_in "/" stem = false ->
  get_sample_id_from_filename (stem ++ ".csv")
  = if only_dots stem then stem ++ ".csv" else stem.
Proof.
  intros Hsep. unfold get_sample_id_from_filename, Py.splitext.
  assert (Hslash : Py.rfind "/" (stem ++ ".csv") = (-1)%Z)
    by now apply rfind_absent, no_sep_csv.
  rewrite Hslash, rfind_dot_csv.
  destruct (Z.ltb_spec (-1) (Z.of_nat (String.length stem))) as [_|Hlt]; [|lia].
  change (Z.to_nat (-1 + 1)) with 0. rewrite Nat2Z.id, Nat.sub_0_r.
  rewrite has_non_dot_stem.
  destruct (only_dots stem); simpl; [reflexivity|].
  apply substring_stem.
Qed.

End FileNames.

Lemma str_in_char_app (c : ascii) (a b : string) :
  Py.str_in (String c "") (a ++ b)
  = orb (Py.str_in (String c "") a) (Py.str_in (String c "") b).
Proof.
  induction a as [|x a IH].
  - reflexivity.
  - cbn [append]. rewrite !str_in_char_cons.
    destruct (ascii_dec c x); [reflexivity | apply IH].
Qed.

Section Locator.

Context {pd : Pandas}.
Variable cfg : Config.
Variable w : World.

(** The loop passes over the entries that are not selected. *)
Lemma process_entries_selected (filenames : list string) (acc : list dict) :
  process_entries cfg w filenames acc
  = process_entries cfg w (selected filenames) acc.
Proof.
  revert acc. induction filenames as [|filename rest IH]; intros acc.
  - reflexivity.
  - unfold selected. cbn [filter]. fold (selected rest).
    destruct (Py.endswith filename ".csv") eqn:Hsuffix.
    + cbn [process_entries]. unfold bind.
      destruct (process_entry cfg w filename acc) as [t [e|acc']];
        [reflexivity|]. now rewrite IH.
    + rewrite (process_entries_skip cfg w filename rest acc Hsuffix). apply IH.
Qed.

End Locator.

(* ===================================================================== *)
(** ** The header loop *)
(* ===================================================================== *)

Lemma find_header_line_split (cfg : Config) (lines : list string) (k n : nat) :
  find_header_line cfg lines k = Some n ->
  exists pre h rest,
    lines = (pre ++ h :: rest)%list /\ n = k + List.length pre /\
    has_both_names cfg h = true /\
    (forall line, In line pre -> has_both_names cfg line = false).
Proof.
  revert k. induction lines as [|line lines IH]; intros k; cbn [find_header_line].
  - discriminate.
  - fold (has_both_names cfg line).
    destruct (has_both_names cfg line) eqn:Hline.
    + intros H. inversion H; subst n. exists [], line, lines.
      cbn. repeat split; [lia | assumption | contradiction].
    + intros H. destruct (IH (S k) H) as [pre [h [rest [-> [-> [Hh Hpre]]]]]].
      exists (line :: pre), h, rest. cbn [app List.length].
      repeat split; [lia | assumption |].
      intros l [<-|Hl]; [assumption | now apply Hpre].
Qed.

Lemma find_header_line_found (cfg : Config) (pre rest : list string)
  (h : string) (k : nat) :
  has_both_names cfg h = true ->
  (forall line, In line pre -> has_both_names cfg line = false) ->
  find_header_line cfg (pre ++ h :: rest) k = Some (k + List.length pre).
Proof.
  intros Hh. revert k. induction pre as [|line pre IH]; intros k Hpre;
    cbn [app find_header_line List.length].
  - fold (has_both_names cfg h). rewrite Hh. f_equal. lia.
  - fold (has_both_names cfg line). rewrite (Hpre line) by now left.
    rewrite IH by (intros l Hl; apply Hpre; now right). f_equal. lia.
Qed.

(** X1. The count of the header loop is the position of the first line
    that contains both column names: the lines before it lack one of
    them, and the lines left after skipping that many start with the
    header line itself. *)
Theorem header_is_first_match (cfg : Config) (lines : list string) (n : nat) :
  find_header_line cfg lines 0 = Some n <->
  exists pre h rest,
    lines = (pre ++ h :: rest)%list /\ List.length pre = n /\
    has_both_names cfg h = true /\
    (forall line, In line pre -> has_both_names cfg line = false) /\
    skipn n lines = h :: rest.
Proof.
  split.
  - intros H. destruct (find_header_line_split cfg lines 0 n H)
      as [pre [h [rest [-> [-> [Hh Hpre]]]]]].
    exists pre, h, rest. cbn [Nat.add].
    repeat split; try assumption.
    rewrite skipn_app, skipn_all, Nat.sub_diag. reflexivity.
  - intros [pre [h [rest [-> [<- [Hh [Hpre _]]]]]]].
    now rewrite (find_header_line_found cfg pre rest h 0 Hh Hpre).
Qed.

(** Sample A: two lines before the header line. *)
Lemma header_is_first_match_witness :
  exists pre h rest,
    Examples.spectrum_A = (pre ++ h :: rest)%list /\ List.length pre = 2 /\
    has_both_names script_config h = true /\
    (forall line, In line pre -> has_both_names script_config line = false) /\
    skipn 2 Examples.spectrum_A = h :: rest.
Proof.
  apply (proj1 (header_is_first_match script_config Examples.spectrum_A 2)).
  reflexivity.
Defined.

(* ===================================================================== *)
(** ** Sample ids and paths *)
(* ===================================================================== *)

Lemma substring_whole (s : string) : substring 0 (String.length s) s = s.
Proof. induction s as [|c s IH]; cbn; [reflexivity | now rewrite IH]. Qed.

Lemma substring_cut (s : string) (n : nat) :
  substring 0 n s ++ substring n (String.length s - n) s = s.
Proof.
  revert n. induction s as [|c s IH]; intros n.
  - now destruct n.
  - destruct n as [|n].
    + cbn [substring String.length Nat.sub append]. now rewrite substring_whole.
    + cbn [substring String.length Nat.sub append]. now rewrite IH.
Qed.

Lemma rfind_range (c : ascii) (s : string) :
  (-1 <= Py.rfind c s < Z.of_nat (String.length s))%Z.
Proof.
  induction s as [|a s IH]; cbn [Py.rfind String.length]; [lia|].
  destruct (Z.leb_spec 0 (Py.rfind c s)); [lia|].
  destruct (Ascii.eqb a c); lia.
Qed.

Lemma rfind_get (c : ascii) (s : string) :
  (0 <= Py.rfind c s)%Z -> get (Z.to_nat (Py.rfind c s)) s = Some c.
Proof.
  induction s as [|a s IH]; cbn [Py.rfind]; [lia|].
  destruct (Z.leb_spec 0 (Py.rfind c s)) as [Hfound|Hnone].
  - intros _. replace (Z.to_nat (Py.rfind c s + 1)) with (S (Z.to_nat (Py.rfind c s)))
      by lia.
    cbn [get]. now apply IH.
  - destruct (Ascii.eqb_spec a c) as [->|_]; [reflexivity | lia].
Qed.

Lemma substring_starts (s : string) (n m : nat) (c : ascii) :
  get n s = Some c -> exists rest, substring n (S m) s = String c rest.
Proof.
  revert n. induction s as [|a s IH]; intros n; [now destruct n|].
  destruct n as [|n]; cbn [get substring].
  - intros H. inversion H; subst a. now eexists.
  - apply IH.
Qed.

(** X2. [os.path.splitext] only cuts: the sample id followed by the
    extension it removed is the filename again, and that extension is
    empty or begins with a dot. *)
Theorem sample_id_and_extension (filename : string) :
  get_sample_id_from_filename filename ++ snd (Py.splitext filename) = filename /\
  (snd (Py.splitext filename) = "" \/
   exists rest, snd (Py.splitext filename) = String "." rest).
Proof.
  unfold get_sample_id_from_filename, Py.splitext.
  pose proof (rfind_range "." filename) as Hdot.
  pose proof (rfind_range "/" filename) as Hsep.
  destruct (Z.ltb_spec (Py.rfind "/" filename) (Py.rfind "." filename))
    as [Hlt|_]; [|split; [apply append_empty_r | now left]].
  destruct (Py.has_non_dot _ _ _); cbn [fst snd].
  - split; [apply substring_cut|]. right.
    assert (Hget : get (Z.to_nat (Py.rfind "." filename)) filename = Some "."%char)
      by (apply rfind_get; lia).
    replace (String.length filename - Z.to_nat (Py.rfind "." filename))
      with (S (String.length filename - Z.to_nat (Py.rfind "." filename) - 1))
      by lia.
    now apply substring_starts.
  - split; [apply append_empty_r | now left].
Qed.

(** X3. The path that is read ends with the listed filename, and begins
    with the folder unless the filename is absolute. *)
Theorem file_path_in_folder (folder filename : string) :
  Py.endswith (Py.path_join folder filename) filename = true /\
  (prefix "/" filename = false ->
   prefix folder (Py.path_join folder filename) = true).
Proof.
  unfold Py.path_join. destruct (prefix "/" filename).
  - split; [|discriminate]. apply endswith_iff. now exists "".
  - destruct (orb _ _); (split; [apply endswith_iff | intros _; apply prefix_app]).
    + now exists folder.
    + exists (folder ++ "/"). now rewrite append_assoc.
Qed.

Lemma file_path_in_folder_witness :
  prefix "PL_Spectra_Raw" (Py.path_join "PL_Spectra_Raw" "A.csv") = true.
Proof.
  apply (proj2 (file_path_in_folder "PL_Spectra_Raw" "A.csv")). reflexivity.
Defined.

(* ===================================================================== *)
(** ** One file *)
(* ===================================================================== *)

(** X4. A peak that [analyze_single_pl_file] returns as two floats is a
    row of the file: both values come from one valid numeric row of the
    frame, for every behaviour of the comparison and of the labels. *)
Theorem peak_is_a_parsed_row {pd : Pandas} (cfg : Config) (w : World)
  (file_path : string) (lines : list string) (n : nat)
  (frame : RawFrame key) (peak_w peak_i : float64) :
  read_lines w file_path = inr lines ->
  find_header_line cfg lines 0 = Some n ->
  read_csv lines n = inr frame ->
  outcome (analyze_single_pl_file cfg w file_path)
  = inr (Some (PyFloat peak_w), Some (PyFloat peak_i)) ->
  In (peak_w, peak_i) (parsed_points (frame_cells frame)).
Proof.
  intros Hread Hhead Hcsv.
  rewrite (analyze_frame cfg w file_path lines n frame Hread Hhead Hcsv).
  rewrite <- (dropna_points frame).
  destruct (dropna (coerce_columns (with_index frame))) as [|r rows];
    [discriminate|].
  unfold peak_of_frame.
  destruct (rows_at (r :: rows) (label_of (scan_row r rows)))
    as [|row [|row' found]] eqn:Hat; [discriminate| |discriminate].
  cbn. intros H. inversion H.
  assert (Hin : In row (rows_at (r :: rows) (label_of (scan_row r rows))))
    by (rewrite Hat; now left).
  apply filter_In in Hin. destruct Hin as [Hin _].
  apply (in_map point_of) in Hin. exact Hin.
Qed.

Lemma peak_is_a_parsed_row_witness :
  In (Examples.num 510 1, Examples.num 276 5)
     (@parsed_points Reference.pandas
        [("lambda [nm]", "intensity [a.u.]"); ("500.0", "10.0");
         ("510.0", "55.2"); ("520.0", "55.2")]).
Proof.
  apply (@peak_is_a_parsed_row Reference.pandas script_config Examples.lab
           "PL_Spectra_Raw/A.csv" Examples.spectrum_A 2
           (Ranged [("lambda [nm]", "intensity [a.u.]"); ("500.0", "10.0");
                    ("510.0", "55.2"); ("520.0", "55.2")]) _ _
           eq_refl eq_refl eq_refl eq_refl).
Defined.

(** An exception of [open] or of [read_csv] ends the [try] block. *)
Lemma analyze_try_raised {pd : Pandas} (cfg : Config) (w : World)
  (file_path : string) (e : exn) :
  read_lines w file_path = inl e \/
  (exists lines n, read_lines w file_path = inr lines /\
                   find_header_line cfg lines 0 = Some n /\
                   read_csv lines n = inl e) ->
  analyze_try cfg w file_path = ([], inl e).
Proof.
  unfold analyze_try, bind, lift, ret.
  intros [Hread|[lines [n [Hread [Hhead Hcsv]]]]].
  - now rewrite Hread.
  - now rewrite Hread, Hhead, Hcsv.
Qed.

(** X5. An exception raised when the file is opened or by [read_csv] is
    caught and reported in one line chosen by its class, the first of the
    three handlers that fits: FileNotFoundError, then EmptyDataError,
    then every other exception with its message; the result is
    (None, None). *)
Theorem library_errors_are_reported {pd : Pandas} (cfg : Config) (w : World)
  (file_path : string) (e : exn) :
  read_lines w file_path = inl e \/
  (exists lines n, read_lines w file_path = inr lines /\
                   find_header_line cfg lines 0 = Some n /\
                   read_csv lines n = inl e) ->
  analyze_single_pl_file cfg w file_path
  = ([Printed
        (if is_FileNotFoundError e then
           "  Error: File not found: " ++ file_path
         else if is_EmptyDataError e then
           "  Error: File " ++ file_path ++ " is empty or contains no data."
         else "  Error processing " ++ file_path ++ ": " ++ exn_msg e)],
     inr (None, None)).
Proof.
  intros Hraised.
  pose proof (analyze_try_raised cfg w file_path e Hraised) as Htry.
  unfold analyze_single_pl_file, try_except. rewrite Htry.
  unfold analyze_except.
  destruct (is_FileNotFoundError e); [reflexivity|].
  destruct (is_EmptyDataError e); reflexivity.
Qed.

(** A listed file that is gone when it is opened. *)
Lemma library_errors_are_reported_witness :
  @analyze_single_pl_file Reference.pandas script_config Examples.lab
    "PL_Spectra_Raw/Z.csv"
  = ([Printed "  Error: File not found: PL_Spectra_Raw/Z.csv"], inr (None, None)).
Proof.
  apply (@library_errors_are_reported Reference.pandas script_config
           Examples.lab "PL_Spectra_Raw/Z.csv"
           (Exn FileNotFoundError "No such file or directory")).
  left. reflexivity.
Defined.

(** X6. Every file without a peak leaves exactly one line on the
    console, and that line names the path of the file; a file with a peak
    leaves none (its line is printed by the caller). *)
Theorem failure_is_logged_once {pd : Pandas} (cfg : Config) (w : World)
  (file_path : string) :
  (outcome (analyze_single_pl_file cfg w file_path) = inr (None, None) ->
   exists before after,
     trace (analyze_single_pl_file cfg w file_path)
     = [Printed (before ++ file_path ++ after)]) /\
  (forall peak_w peak_i,
      outcome (analyze_single_pl_file cfg w file_path)
      = inr (Some peak_w, Some peak_i) ->
      trace (analyze_single_pl_file cfg w file_path) = []).
Proof.
  destruct (analyze_try_cases cfg w file_path)
    as [[e Htry]|[Htry|[peak_w [peak_i Htry]]]].
  - unfold analyze_single_pl_file, try_except. rewrite Htry.
    unfold analyze_except.
    destruct (is_FileNotFoundError e); [|destruct (is_EmptyDataError e)];
      cbn; (split; [intros _ | intros ? ?; discriminate]).
    + exists "  Error: File not found: ", "". now rewrite append_empty_r.
    + now exists "  Error: File ", " is empty or contains no data.".
    + now exists "  Error processing ", (": " ++ exn_msg e).
  - rewrite (analyze_returned cfg w _ _ _ Htry). cbn.
    split; [intros _ | intros ? ?; discriminate].
    now exists "  Warning: No valid numerical PL data found in ", ".".
  - rewrite (analyze_returned cfg w _ _ _ Htry). cbn.
    split; [discriminate | reflexivity].
Qed.

Lemma failure_is_logged_once_witness :
  exists before after,
    trace (@analyze_single_pl_file Reference.pandas script_config Examples.lab
             "PL_Spectra_Raw/B.csv")
    = [Printed (before ++ "PL_Spectra_Raw/B.csv" ++ after)].
Proof.
  apply (proj1 (@failure_is_logged_once Reference.pandas script_config
                  Examples.lab "PL_Spectra_Raw/B.csv")).
  reflexivity.
Defined.

Lemma find_header_line_lower (cfg : Config) (lines : list string) (k n : nat) :
  find_header_line cfg lines k = Some n -> k <= n.
Proof.
  revert k. induction lines as [|line rest IH]; intros k; simpl.
  - discriminate.
  - destruct (andb _ _).
    + intros H. inversion H. lia.
    + intros H. apply IH in H. lia.
Qed.

(** The header line found among the first lines is found whatever
    follows them. *)
Lemma find_header_line_before (cfg : Config) (pre post post' : list string)
  (k n : nat) :
  find_header_line cfg (pre ++ post) k = Some n ->
  n < k + List.length pre ->
  find_header_line cfg (pre ++ post') k = Some n.
Proof.
  revert k. induction pre as [|line pre IH]; intros k; simpl.
  - intros H Hn. apply find_header_line_lower in H. lia.
  - destruct (andb _ _); [auto|].
    intros H Hn. apply IH; [assumption | lia].
Qed.

(* ===================================================================== *)
(** ** The reference reader *)
(* ===================================================================== *)

Section ReferenceReader.

Import Reference.

Lemma records_of_lines_app (k : nat) (x y : list string) :
  records_of_lines k (x ++ y)
  = (records_of_lines k x ++ records_of_lines (k + List.length x) y)%list.
Proof.
  revert k. induction x as [|line x IH]; intros k;
    cbn [app records_of_lines List.length].
  - now rewrite Nat.add_0_r.
  - rewrite IH. replace (S k + List.length x) with (k + S (List.length x)) by lia.
    destruct (record_of_line line); reflexivity.
Qed.

(** The fields of the records do not depend on the numbering. *)
Lemma records_fields_shift (k k' : nat) (lines : list string) :
  map snd (records_of_lines k lines) = map snd (records_of_lines k' lines).
Proof.
  revert k k'. induction lines as [|line lines IH]; intros k k';
    cbn [records_of_lines]; [reflexivity|].
  destruct (record_of_line line); cbn [map snd]; [f_equal|]; apply IH.
Qed.

Lemma comment_line_no_record (c : string) :
  prefix "#" c = true -> record_of_line c = None.
Proof.
  intros Hc. unfold record_of_line. rewrite Hc. now destruct (is_blank c).
Qed.

Lemma blank_line_no_record (c : string) :
  is_blank c = true -> record_of_line c = None.
Proof. intros Hc. unfold record_of_line. now rewrite Hc. Qed.

Lemma skipn_before (A : Type) (n : nat) (pre post : list A) :
  n <= List.length pre -> skipn n (pre ++ post) = (skipn n pre ++ post)%list.
Proof.
  intros Hn. rewrite skipn_app.
  replace (n - List.length pre) with 0 by lia. reflexivity.
Qed.

Lemma expected_fields_fields (recs recs' : list (nat * list string)) :
  map snd recs = map snd recs' -> expected_fields recs = expected_fields recs'.
Proof.
  destruct recs as [|[k f] recs], recs' as [|[k' f'] recs']; cbn;
    try discriminate; [reflexivity|].
  intros H. now inversion H.
Qed.

(** Records with the same fields are padded to the same rows; the line
    numbers only show in the message of the error. *)
Lemma padded_rows_fields (expected : nat) (recs recs' : list (nat * list string))
  (rows : list (list string)) :
  map snd recs = map snd recs' ->
  padded_rows expected recs = inr rows ->
  padded_rows expected recs' = inr rows.
Proof.
  revert recs' rows.
  induction recs as [|[k f] recs IH]; intros [|[k' f'] recs'] rows;
    cbn [map snd]; try discriminate; [auto|].
  intros H. injection H as Hf Hrest. subst f'. cbn [padded_rows].
  destruct (Nat.ltb expected (List.length f)); [discriminate|].
  destruct (padded_rows expected recs) as [err|rows0] eqn:Hrec; [discriminate|].
  intros Hrows. now rewrite (IH recs' rows0 Hrest eq_refl).
Qed.

Lemma no_record_line_fields (pre post : list string) (c : string) (n k : nat) :
  record_of_line c = None -> n <= List.length pre ->
  map snd (records_of_lines k (skipn n (pre ++ c :: post)))
  = map snd (records_of_lines k (skipn n (pre ++ post))).
Proof.
  intros Hc Hn. rewrite !skipn_before by assumption.
  rewrite !records_of_lines_app. cbn [records_of_lines]. rewrite Hc.
  rewrite !map_app. f_equal. apply records_fields_shift.
Qed.

Lemma same_record_line (pre post : list string) (c c' : string) (n k : nat) :
  record_of_line c = record_of_line c' -> n <= List.length pre ->
  records_of_lines k (skipn n (pre ++ c :: post))
  = records_of_lines k (skipn n (pre ++ c' :: post)).
Proof.
  intros Hc Hn. rewrite !skipn_before by assumption.
  rewrite !records_of_lines_app. cbn [records_of_lines]. now rewrite Hc.
Qed.

Lemma quote_free_without (pre post : list string) (c : string) :
  existsb has_quote (pre ++ c :: post) = false ->
  existsb has_quote (pre ++ post) = false.
Proof.
  rewrite !existsb_app. cbn [existsb]. intros H.
  apply orb_false_iff in H. destruct H as [Hpre H].
  apply orb_false_iff in H. destruct H as [_ Hpost].
  now rewrite Hpre, Hpost.
Qed.

Lemma quote_free_shorter (pre post : list string) (line rest : string) :
  existsb has_quote (pre ++ (line ++ rest)%string :: post) = false ->
  existsb has_quote (pre ++ line :: post) = false.
Proof.
  rewrite !existsb_app. cbn [existsb]. intros H.
  apply orb_false_iff in H. destruct H as [Hpre H].
  apply orb_false_iff in H. destruct H as [Hline Hpost].
  unfold has_quote in *. rewrite str_in_char_app in Hline.
  apply orb_false_iff in Hline. destruct Hline as [Hline _].
  now rewrite Hpre, Hline, Hpost.
Qed.

Lemma is_blank_app (l x : string) :
  is_blank l = false -> is_blank (l ++ x) = false.
Proof.
  induction l as [|c l IH]; cbn [is_blank append]; [discriminate|].
  destruct (Ascii.eqb c " "); [apply IH | reflexivity].
Qed.

Lemma before_comment_remark (l note : string) :
  before_comment (l ++ String "#" note) = before_comment l.
Proof.
  induction l as [|c l IH]; cbn [append before_comment].
  - reflexivity.
  - destruct (Ascii.eqb c "#"); [reflexivity | now rewrite IH].
Qed.

Lemma record_of_line_remark (l note : string) :
  is_blank l = false ->
  record_of_line (l ++ String "#" note) = record_of_line l.
Proof.
  intros Hl. unfold record_of_line.
  rewrite (is_blank_app l _ Hl), Hl, before_comment_remark.
  destruct l as [|c l]; [discriminate|].
  cbn [append prefix]. destruct (ascii_dec "#" c); [|reflexivity].
  now rewrite !prefix_empty.
Qed.

(** What holds for every index inference, every treatment of quoted
    text, and every coercion, comparison and set of writers. *)
Section AnyReader.

Variable K : Type.
Variable infer_index : list (list string) -> list K.
Variable quoted : list string -> nat -> exn + RawFrame K.
Variable F : Type.
Variable K_eqb : K -> K -> bool.
Variable coerce : string -> option F.
Variable gtb : F -> F -> bool.
Variable writers : string -> bool.

Local Abbreviation reader :=
  (pandas_with K infer_index quoted F K_eqb coerce gtb writers).

Lemma read_table_fields (lines1 lines2 : list string) (n1 n2 : nat)
  (frame : RawFrame K) :
  map snd (records_of_lines (S n1) (skipn n1 lines1))
  = map snd (records_of_lines (S n2) (skipn n2 lines2)) ->
  read_table K infer_index lines1 n1 = inr frame ->
  read_table K infer_index lines2 n2 = inr frame.
Proof.
  intros Hf. unfold read_table.
  rewrite (expected_fields_fields _ _ Hf).
  destruct (padded_rows _ (records_of_lines (S n1) (skipn n1 lines1)))
    as [e|rows] eqn:H1; [discriminate|].
  now rewrite (padded_rows_fields _ _ _ rows Hf H1).
Qed.

(** Text without the double quote is read by the tokenizer above. *)
Lemma read_csv_plain (lines : list string) (n : nat) :
  existsb has_quote lines = false ->
  @read_csv reader lines n = read_table K infer_index lines n.
Proof.
  intros Hq. cbn [read_csv pandas_with]. unfold read_text. now rewrite Hq.
Qed.

(** Two files with the same fields after their header lines give the
    same result, and the same run when they are read without an error. *)
Lemma same_fields_same_analysis (cfg : Config) (w1 w2 : World)
  (file_path : string) (lines1 lines2 : list string) (n1 n2 : nat) :
  read_lines w1 file_path = inr lines1 ->
  read_lines w2 file_path = inr lines2 ->
  existsb has_quote lines1 = false ->
  existsb has_quote lines2 = false ->
  find_header_line cfg lines1 0 = Some n1 ->
  find_header_line cfg lines2 0 = Some n2 ->
  map snd (records_of_lines (S n1) (skipn n1 lines1))
  = map snd (records_of_lines (S n2) (skipn n2 lines2)) ->
  outcome (@analyze_single_pl_file reader cfg w1 file_path)
  = outcome (@analyze_single_pl_file reader cfg w2 file_path) /\
  (forall frame,
      @read_csv reader lines2 n2 = inr frame ->
      @analyze_single_pl_file reader cfg w1 file_path
      = @analyze_single_pl_file reader cfg w2 file_path).
Proof.
  intros Hread1 Hread2 Hq1 Hq2 Hhead1 Hhead2 Hf.
  pose proof (read_csv_plain lines1 n1 Hq1) as Hcsv1.
  pose proof (read_csv_plain lines2 n2 Hq2) as Hcsv2.
  destruct (read_table K infer_index lines2 n2) as [e2|frame2] eqn:H2.
  - destruct (read_table K infer_index lines1 n1) as [e1|frame1] eqn:H1.
    + split.
      * assert (Htry1 : @analyze_try reader cfg w1 file_path = ([], inl e1)).
        { apply analyze_try_raised. right. now exists lines1, n1. }
        assert (Htry2 : @analyze_try reader cfg w2 file_path = ([], inl e2)).
        { apply analyze_try_raised. right. now exists lines2, n2. }
        destruct (@analyze_raised reader cfg w1 file_path _ _ Htry1)
          as [l1 [_ ->]].
        destruct (@analyze_raised reader cfg w2 file_path _ _ Htry2)
          as [l2 [_ ->]].
        reflexivity.
      * intros frame Hframe. rewrite Hcsv2 in Hframe. discriminate.
    + pose proof (read_table_fields lines1 lines2 n1 n2 frame1 Hf H1) as H.
      rewrite H2 in H. discriminate.
  - assert (H1 : read_table K infer_index lines1 n1 = inr frame2).
    { apply (read_table_fields lines2 lines1 n2 n1 frame2); [|assumption].
      now symmetry. }
    rewrite H1 in Hcsv1.
    rewrite (@analyze_frame reader cfg w1 file_path lines1 n1 frame2
               Hread1 Hhead1 Hcsv1).
    rewrite (@analyze_frame reader cfg w2 file_path lines2 n2 frame2
               Hread2 Hhead2 Hcsv2).
    split; [reflexivity | intros; reflexivity].
Qed.

(** Two files with the same records under the same numbers give the
    same run. *)
Lemma same_records_same_run (cfg : Config) (w1 w2 : World)
  (file_path : string) (lines1 lines2 : list string) (n : nat) :
  read_lines w1 file_path = inr lines1 ->
  read_lines w2 file_path = inr lines2 ->
  existsb has_quote lines1 = false ->
  existsb has_quote lines2 = false ->
  find_header_line cfg lines1 0 = Some n ->
  find_header_line cfg lines2 0 = Some n ->
  records_of_lines (S n) (skipn n lines1)
  = records_of_lines (S n) (skipn n lines2) ->
  @analyze_single_pl_file reader cfg w1 file_path
  = @analyze_single_pl_file reader cfg w2 file_path.
Proof.
  intros Hread1 Hread2 Hq1 Hq2 Hhead1 Hhead2 Hrec.
  unfold analyze_single_pl_file, analyze_try, bind, lift.
  rewrite Hread1, Hread2, Hhead1, Hhead2. unfold ret.
  rewrite (read_csv_plain lines1 n Hq1), (read_csv_plain lines2 n Hq2).
  unfold read_table. now rewrite Hrec.
Qed.

(** A line that is no record, in the data region. *)
Lemma no_record_line_same_analysis (cfg : Config) (w1 w2 : World)
  (file_path : string) (pre post : list string) (c : string) (n : nat) :
  record_of_line c = None ->
  existsb has_quote (pre ++ c :: post) = false ->
  read_lines w1 file_path = inr (pre ++ c :: post)%list ->
  read_lines w2 file_path = inr (pre ++ post)%list ->
  find_header_line cfg (pre ++ post) 0 = Some n ->
  n < List.length pre ->
  outcome (@analyze_single_pl_file reader cfg w1 file_path)
  = outcome (@analyze_single_pl_file reader cfg w2 file_path) /\
  (forall frame,
      @read_csv reader (pre ++ post) n = inr frame ->
      @analyze_single_pl_file reader cfg w1 file_path
      = @analyze_single_pl_file reader cfg w2 file_path).
Proof.
  intros Hc Hq Hread1 Hread2 Hhead Hn.
  apply (same_fields_same_analysis cfg w1 w2 file_path _ _ n n Hread1 Hread2).
  - assumption.
  - apply (quote_free_without pre post c Hq).
  - apply (find_header_line_before cfg pre post (c :: post) 0 n Hhead Hn).
  - assumption.
  - apply no_record_line_fields; [assumption | lia].
Qed.

End AnyReader.

End ReferenceReader.

(** C5 (as the code has it). In a file without the double quote, lines
    that begin with the comment marker are excluded from parsing and
    from the peak: the file with the lines [#note], [500.0<TAB>1.0],
    [#skip], [500.0<TAB>99.0] after its header line has the peak
    (500.0, 99.0); and for every index inference and every coercion of
    cells, a line that begins with [#] in the data region of such a file
    does not change what [analyze_single_pl_file] returns, and it does
    not change what is printed either when the file is read without an
    error (the message of a tokenizing error names the number of a line,
    which counts the comment lines too). *)
Theorem comment_lines_are_excluded :
  outcome (@analyze_single_pl_file Reference.pandas script_config
             Examples.lab_comments "PL_Spectra_Raw/K.csv")
  = inr (Some (@PyFloat Reference.pandas (Examples.num 500 1)),
         Some (@PyFloat Reference.pandas (Examples.num 99 1))) /\
  forall (K : Type) (infer_index : list (list string) -> list K)
         (quoted : list string -> nat -> exn + RawFrame K)
         (F : Type) (K_eqb : K -> K -> bool) (coerce : string -> option F)
         (gtb : F -> F -> bool) (writers : string -> bool)
         (cfg : Config) (w1 w2 : World) (file_path : string)
         (pre post : list string) (c : string) (n : nat),
    prefix "#" c = true ->
    existsb Reference.has_quote (pre ++ c :: post) = false ->
    read_lines w1 file_path = inr (pre ++ c :: post)%list ->
    read_lines w2 file_path = inr (pre ++ post)%list ->
    find_header_line cfg (pre ++ post) 0 = Some n ->
    n < List.length pre ->
    outcome (@analyze_single_pl_file
               (Reference.pandas_with K infer_index quoted F K_eqb coerce gtb writers)
               cfg w1 file_path)
    = outcome (@analyze_single_pl_file
                 (Reference.pandas_with K infer_index quoted F K_eqb coerce gtb writers)
                 cfg w2 file_path) /\
    (forall frame,
        @read_csv (Reference.pandas_with K infer_index quoted F K_eqb coerce gtb writers)
          (pre ++ post) n = inr frame ->
        @analyze_single_pl_file
          (Reference.pandas_with K infer_index quoted F K_eqb coerce gtb writers)
          cfg w1 file_path
        = @analyze_single_pl_file
            (Reference.pandas_with K infer_index quoted F K_eqb coerce gtb writers)
            cfg w2 file_path).
Proof.
  split; [reflexivity|].
  intros K infer_index quoted F K_eqb coerce gtb writers cfg w1 w2 file_path
    pre post c n Hc Hq Hread1 Hread2 Hhead Hn.
  apply (no_record_line_same_analysis K infer_index quoted F K_eqb coerce gtb
           writers cfg w1 w2 file_path pre post c n); try assumption.
  now apply comment_line_no_record.
Qed.

(** The line [#skip] of the example file. *)
Lemma comment_lines_are_excluded_witness :
  @analyze_single_pl_file Reference.pandas script_config Examples.lab_comments
    "PL_Spectra_Raw/K.csv"
  = @analyze_single_pl_file Reference.pandas script_config
      Examples.lab_comments_less "PL_Spectra_Raw/K.csv".
Proof.
  refine (proj2
            (proj2 comment_lines_are_excluded (list string) (fun labels => labels)
               (Reference.read_quoted (list string) (fun labels => labels))
               Reference.decimal Reference.fields_eqb Reference.parse_float
               Reference.gtD Reference.known_writer
               script_config Examples.lab_comments Examples.lab_comments_less
               "PL_Spectra_Raw/K.csv"
               [Reference.header_line; "#note"; Reference.tabbed "500.0" "1.0"]
               [Reference.tabbed "500.0" "99.0"] "#skip" 0 _ _ _ _ _ _)
            (Ranged [("lambda [nm]", "intensity [a.u.]"); ("500.0", "1.0");
                     ("500.0", "99.0")]) _);
    try reflexivity.
  cbn. lia.
Defined.

(** A double quote opens a field that runs across line ends, and a line
    that begins with [#] inside it is data: the third line of the file
    [spectrum_Q] begins with [#] and stands in the data region, and its
    quote closes the field that the line before it has opened.  With
    the line the peak is (600.0, 99.0); without it the open field takes
    the row (600.0, 99.0) in, and the file has no valid row. *)
Lemma comment_lines_are_excluded_counterexample :
  find_header_line script_config Examples.spectrum_Q 0 = Some 0 /\
  nth_error Examples.spectrum_Q 2 = Some (String "#" (String Py.QUOTE "")) /\
  remove_nth 2 Examples.spectrum_Q = Examples.spectrum_Q_less /\
  @analyze_single_pl_file Reference.pandas script_config Examples.lab_quoted
    "PL_Spectra_Raw/Q.csv"
  = ([], inr (Some (@PyFloat Reference.pandas (Examples.num 600 1)),
              Some (@PyFloat Reference.pandas (Examples.num 99 1)))) /\
  @analyze_single_pl_file Reference.pandas script_config
    Examples.lab_quoted_less "PL_Spectra_Raw/Q.csv"
  = ([Printed "  Warning: No valid numerical PL data found in PL_Spectra_Raw/Q.csv."],
     inr (None, None)).
Proof. repeat split; reflexivity. Qed.

(** X7. The lines before the header line are discarded: two files
    without the double quote, with the same header line and the same
    lines after it, give the same result whatever stands before the
    header (as long as no earlier line contains both column names), and
    the same output when the data is read without an error. *)
Theorem lines_before_header_are_discarded
  (K : Type) (infer_index : list (list string) -> list K)
  (quoted : list string -> nat -> exn + RawFrame K)
  (F : Type) (K_eqb : K -> K -> bool) (coerce : string -> option F)
  (gtb : F -> F -> bool) (writers : string -> bool)
  (cfg : Config) (w1 w2 : World)
  (file_path : string) (pre1 pre2 data : list string) (h : string) :
  has_both_names cfg h = true ->
  (forall line, In line pre1 -> has_both_names cfg line = false) ->
  (forall line, In line pre2 -> has_both_names cfg line = false) ->
  existsb Reference.has_quote (pre1 ++ h :: data) = false ->
  existsb Reference.has_quote (pre2 ++ h :: data) = false ->
  read_lines w1 file_path = inr (pre1 ++ h :: data)%list ->
  read_lines w2 file_path = inr (pre2 ++ h :: data)%list ->
  outcome (@analyze_single_pl_file
             (Reference.pandas_with K infer_index quoted F K_eqb coerce gtb writers)
             cfg w1 file_path)
  = outcome (@analyze_single_pl_file
               (Reference.pandas_with K infer_index quoted F K_eqb coerce gtb writers)
               cfg w2 file_path) /\
  (forall frame,
      @read_csv (Reference.pandas_with K infer_index quoted F K_eqb coerce gtb writers)
        (pre2 ++ h :: data) (List.length pre2) = inr frame ->
      @analyze_single_pl_file
        (Reference.pandas_with K infer_index quoted F K_eqb coerce gtb writers)
        cfg w1 file_path
      = @analyze_single_pl_file
          (Reference.pandas_with K infer_index quoted F K_eqb coerce gtb writers)
          cfg w2 file_path).
Proof.
  intros Hh Hpre1 Hpre2 Hq1 Hq2 Hread1 Hread2.
  apply (same_fields_same_analysis K infer_index quoted F K_eqb coerce gtb
           writers cfg w1 w2 file_path _ _ (List.length pre1) (List.length pre2)
           Hread1 Hread2 Hq1 Hq2).
  - apply (find_header_line_found cfg pre1 data h 0 Hh Hpre1).
  - apply (find_header_line_found cfg pre2 data h 0 Hh Hpre2).
  - rewrite !skipn_app, !skipn_all, !Nat.sub_diag. cbn [skipn app].
    apply records_fields_shift.
Qed.

(** Sample A with and without the two lines before its header. *)
Lemma lines_before_header_are_discarded_witness :
  @analyze_single_pl_file Reference.pandas script_config Examples.lab
    "PL_Spectra_Raw/A.csv"
  = @analyze_single_pl_file Reference.pandas script_config Examples.lab_bare
      "PL_Spectra_Raw/A.csv".
Proof.
  refine (proj2
            (lines_before_header_are_discarded (list string)
               (fun labels => labels)
               (Reference.read_quoted (list string) (fun labels => labels))
               Reference.decimal Reference.fields_eqb Reference.parse_float
               Reference.gtD Reference.known_writer
               script_config Examples.lab Examples.lab_bare
               "PL_Spectra_Raw/A.csv"
               ["# sample A"; "# instrument notes"] []
               [Reference.tabbed "500.0" "10.0"; Reference.tabbed "510.0" "55.2";
                Reference.tabbed "520.0" "55.2"]
               Reference.header_line _ _ _ _ _ _ _)
            (Ranged [("lambda [nm]", "intensity [a.u.]"); ("500.0", "10.0");
                     ("510.0", "55.2"); ("520.0", "55.2")]) _);
    try reflexivity.
  - intros line [<-|[<-|[]]]; reflexivity.
  - intros line [].
Defined.

(** X8. An empty line, or a line of spaces only, in the data region of
    a file without the double quote does not change what
    [analyze_single_pl_file] returns, nor what it prints when the file is
    read without an error. *)
Theorem blank_lines_are_skipped
  (K : Type) (infer_index : list (list string) -> list K)
  (quoted : list string -> nat -> exn + RawFrame K)
  (F : Type) (K_eqb : K -> K -> bool) (coerce : string -> option F)
  (gtb : F -> F -> bool) (writers : string -> bool)
  (cfg : Config) (w1 w2 : World)
  (file_path : string) (pre post : list string) (c : string) (n : nat) :
  Reference.is_blank c = true ->
  existsb Reference.has_quote (pre ++ post) = false ->
  read_lines w1 file_path = inr (pre ++ c :: post)%list ->
  read_lines w2 file_path = inr (pre ++ post)%list ->
  find_header_line cfg (pre ++ post) 0 = Some n ->
  n < List.length pre ->
  outcome (@analyze_single_pl_file
             (Reference.pandas_with K infer_index quoted F K_eqb coerce gtb writers)
             cfg w1 file_path)
  = outcome (@analyze_single_pl_file
               (Reference.pandas_with K infer_index quoted F K_eqb coerce gtb writers)
               cfg w2 file_path) /\
  (forall frame,
      @read_csv (Reference.pandas_with K infer_index quoted F K_eqb coerce gtb writers)
        (pre ++ post) n = inr frame ->
      @analyze_single_pl_file
        (Reference.pandas_with K infer_index quoted F K_eqb coerce gtb writers)
        cfg w1 file_path
      = @analyze_single_pl_file
          (Reference.pandas_with K infer_index quoted F K_eqb coerce gtb writers)
          cfg w2 file_path).
Proof.
  intros Hc Hq Hread1 Hread2 Hhead Hn.
  apply (no_record_line_same_analysis K infer_index quoted F K_eqb coerce gtb
           writers cfg w1 w2 file_path pre post c n); try assumption.
  - now apply blank_line_no_record.
  - rewrite existsb_app in *. cbn [existsb].
    apply orb_false_iff in Hq. destruct Hq as [-> ->].
    assert (Hblank : Reference.has_quote c = false).
    { clear - Hc. unfold Reference.has_quote.
      induction c as [|a c IH]; [reflexivity|].
      cbn [Reference.is_blank] in Hc. rewrite str_in_char_cons.
      destruct (Ascii.eqb_spec a " ") as [->|_]; [|discriminate].
      destruct (ascii_dec Py.QUOTE " ") as [E|_]; [discriminate E | now apply IH]. }
    now rewrite Hblank.
Qed.

Lemma blank_lines_are_skipped_witness :
  @analyze_single_pl_file Reference.pandas script_config Examples.lab_blank
    "PL_Spectra_Raw/A.csv"
  = @analyze_single_pl_file Reference.pandas script_config Examples.lab_bare
      "PL_Spectra_Raw/A.csv".
Proof.
  refine (proj2
            (blank_lines_are_skipped (list string) (fun labels => labels)
               (Reference.read_quoted (list string) (fun labels => labels))
               Reference.decimal Reference.fields_eqb Reference.parse_float
               Reference.gtD Reference.known_writer
               script_config Examples.lab_blank Examples.lab_bare
               "PL_Spectra_Raw/A.csv"
               [Reference.header_line; Reference.tabbed "500.0" "10.0"]
               [Reference.tabbed "510.0" "55.2"; Reference.tabbed "520.0" "55.2"]
               "" 0 _ _ _ _ _ _)
            (Ranged [("lambda [nm]", "intensity [a.u.]"); ("500.0", "10.0");
                     ("510.0", "55.2"); ("520.0", "55.2")]) _);
    try reflexivity.
  cbn. lia.
Defined.

(** X9. The comment marker also ends a data line: in a file without the
    double quote, a [#] and whatever follows it, appended to a line of
    the data region that is not blank, changes neither what
    [analyze_single_pl_file] prints nor what it returns. *)
Theorem remark_after_data_is_ignored
  (K : Type) (infer_index : list (list string) -> list K)
  (quoted : list string -> nat -> exn + RawFrame K)
  (F : Type) (K_eqb : K -> K -> bool) (coerce : string -> option F)
  (gtb : F -> F -> bool) (writers : string -> bool)
  (cfg : Config) (w1 w2 : World)
  (file_path : string) (pre post : list string) (line note : string) (n : nat) :
  Reference.is_blank line = false ->
  existsb Reference.has_quote
    (pre ++ (line ++ String "#" note)%string :: post) = false ->
  read_lines w1 file_path = inr (pre ++ (line ++ String "#" note)%string :: post)%list ->
  read_lines w2 file_path = inr (pre ++ line :: post)%list ->
  find_header_line cfg (pre ++ line :: post) 0 = Some n ->
  n < List.length pre ->
  @analyze_single_pl_file
    (Reference.pandas_with K infer_index quoted F K_eqb coerce gtb writers)
    cfg w1 file_path
  = @analyze_single_pl_file
      (Reference.pandas_with K infer_index quoted F K_eqb coerce gtb writers)
      cfg w2 file_path.
Proof.
  intros Hline Hq Hread1 Hread2 Hhead Hn.
  apply (same_records_same_run K infer_index quoted F K_eqb coerce gtb writers
           cfg w1 w2 file_path _ _ n Hread1 Hread2).
  - assumption.
  - apply (quote_free_shorter pre post line _ Hq).
  - apply (find_header_line_before cfg pre (line :: post) _ 0 n Hhead Hn).
  - assumption.
  - apply same_record_line; [|lia].
    now apply record_of_line_remark.
Qed.

Lemma remark_after_data_is_ignored_witness :
  @analyze_single_pl_file Reference.pandas script_config Examples.lab_remark
    "PL_Spectra_Raw/A.csv"
  = @analyze_single_pl_file Reference.pandas script_config Examples.lab_bare
      "PL_Spectra_Raw/A.csv".
Proof.
  apply (remark_after_data_is_ignored (list string) (fun labels => labels)
           (Reference.read_quoted (list string) (fun labels => labels))
           Reference.decimal Reference.fields_eqb Reference.parse_float
           Reference.gtD Reference.known_writer
           script_config Examples.lab_remark
           Examples.lab_bare "PL_Spectra_Raw/A.csv"
           [Reference.header_line]
           [Reference.tabbed "510.0" "55.2"; Reference.tabbed "520.0" "55.2"]
           (Reference.tabbed "500.0" "10.0") "dark" 0).
  - reflexivity.
  - reflexivity.
  - reflexivity.
  - reflexivity.
  - reflexivity.
  - cbn. lia.
Defined.

(* ===================================================================== *)
(** ** The entries the loop takes up *)
(* ===================================================================== *)

(** C9 (as the code has it). The loop processes exactly the directory
    entries whose name ends with [.csv], in the order of the listing (the
    directory is listed once, nothing below it is visited): the entries
    that are not selected leave no trace, and when the loop ends, what it
    has printed is what the loop body prints for each selected entry in
    turn (its progress line with the filename and the sample id, the
    output of the analysis of its file, the line of its peak or of its
    failure), and its records are those of the selected entries whose
    file gave a peak; the sample id of a selected name without separator
    is the name without its final [.csv], except that a name in which
    only dots come before [csv], such as [.csv], is its own sample id. *)
Theorem locator_and_sample_id {pd : Pandas} (cfg : Config) (w : World)
  (filenames : list string) (acc : list dict) :
  process_entries cfg w filenames acc
  = process_entries cfg w (selected filenames) acc /\
  (forall filename,
      In filename (selected filenames) <->
      In filename filenames /\ exists stem, filename = stem ++ ".csv") /\
  (forall rows,
      outcome (process_entries cfg w filenames acc) = inr rows ->
      trace (process_entries cfg w filenames acc)
      = flat_map (entry_events cfg w) (selected filenames) /\
      filter is_progress (trace (process_entries cfg w filenames acc))
      = map (fun filename => Printed (processing_line filename))
            (selected filenames) /\
      rows = (acc ++ successful_records cfg w filenames)%list) /\
  (forall stem,
      Py.str_in "/" stem = false ->
      get_sample_id_from_filename (stem ++ ".csv")
      = if only_dots stem then stem ++ ".csv" else stem).
Proof.
  split; [apply process_entries_selected|]. split; [|split].
  - intros filename. unfold selected. rewrite filter_In.
    now rewrite endswith_iff.
  - intros rows Hrows. split; [|split].
    + now apply (process_entries_trace cfg w filenames acc rows).
    + now apply (process_entries_progress cfg w filenames acc rows).
    + exact (proj1 (process_entries_records cfg w filenames acc rows Hrows)).
  - apply sample_id_of_csv.
Qed.

(** The folder with A.csv, B.csv, notes.txt and C.csv, and a sample
    name with dashes. *)
Lemma locator_and_sample_id_witness :
  filter (@is_progress Reference.pandas)
    (trace (@process_entries Reference.pandas script_config Examples.lab
              ["A.csv"; "B.csv"; "notes.txt"; "C.csv"] []))
  = [Printed "Processing 'A.csv' (Sample ID: A)...";
     Printed "Processing 'B.csv' (Sample ID: B)...";
     Printed "Processing 'C.csv' (Sample ID: C)..."] /\
  get_sample_id_from_filename ("G25-023-center" ++ ".csv") = "G25-023-center".
Proof.
  split.
  - apply (proj1 (proj2 (proj1 (proj2 (proj2
             (@locator_and_sample_id Reference.pandas script_config
                Examples.lab ["A.csv"; "B.csv"; "notes.txt"; "C.csv"] [])))
             [Examples.record_A] eq_refl))).
  - apply (proj2 (proj2 (proj2 (@locator_and_sample_id Reference.pandas
                                  script_config Examples.lab
                                  ["A.csv"; "B.csv"; "notes.txt"; "C.csv"] [])))
             "G25-023-center").
    reflexivity.
Defined.

(** The entry [.csv] is selected, and its sample id is not the name with
    the suffix removed (the empty string) but the whole name. *)
Lemma sample_id_counterexample :
  selected [".csv"] = [".csv"] /\
  get_sample_id_from_filename ".csv" = ".csv" /\
  get_sample_id_from_filename ".csv" <> drop_last 4 ".csv" /\
  nth_error (trace (@main Reference.pandas script_config Examples.lab_dotfile)) 2
  = Some (Printed "Processing '.csv' (Sample ID: .csv)...").
Proof.
  split; [reflexivity|]. split; [reflexivity|]. split; [discriminate|].
  reflexivity.
Qed.

(** X11. Every output row belongs to a selected entry and holds the peak
    of its file, and every selected entry whose file gives a peak has its
    row: the records the loop ends with, started from none, are exactly
    the [peak_record]s of the selected entries with a peak. *)
Theorem rows_are_peaks_of_entries {pd : Pandas} (cfg : Config) (w : World)
  (filenames : list string) (rows : list dict) (d : dict) :
  outcome (process_entries cfg w filenames []) = inr rows ->
  (In d rows <->
   exists filename peak_w peak_i,
     In filename filenames /\ Py.endswith filename ".csv" = true /\
     outcome (analyze_single_pl_file cfg w
                (Py.path_join (RAW_PL_DATA_FOLDER cfg) filename))
     = inr (Some peak_w, Some peak_i) /\
     d = peak_record (get_sample_id_from_filename filename) peak_w peak_i).
Proof.
  intros Hrows.
  destruct (process_entries_records cfg w filenames [] rows Hrows)
    as [-> Hscalar].
  cbn [app]. unfold successful_records. rewrite in_flat_map. split.
  - intros [filename [Hsel Hd]]. unfold selected in Hsel.
    apply filter_In in Hsel. destruct Hsel as [Hin Hsuffix].
    unfold analysis_of in Hd.
    destruct (outcome (analyze_single_pl_file cfg w _))
      as [e|[[[x|xs]|] [[y|ys]|]]] eqn:Hout; try contradiction.
    destruct Hd as [<-|[]]. now exists filename, (PyFloat x), (PyFloat y).
  - intros [filename [peak_w [peak_i [Hin [Hsuffix [Hout ->]]]]]].
    assert (Hsel : In filename (selected filenames))
      by (unfold selected; apply filter_In; now split).
    exists filename. split; [assumption|].
    unfold scalar_peaks in Hscalar. rewrite forallb_forall in Hscalar.
    pose proof (Hscalar filename Hsel) as Hone.
    unfold analysis_of in *. rewrite Hout in Hone |- *.
    destruct peak_w as [x|xs], peak_i as [y|ys]; try discriminate.
    now left.
Qed.

Lemma rows_are_peaks_of_entries_witness :
  In Examples.record_A (records Examples.table_A) <->
  exists filename peak_w peak_i,
    In filename ["A.csv"; "B.csv"; "notes.txt"; "C.csv"] /\
    Py.endswith filename ".csv" = true /\
    outcome (@analyze_single_pl_file Reference.pandas script_config Examples.lab
               (Py.path_join "PL_Spectra_Raw" filename))
    = inr (Some peak_w, Some peak_i) /\
    Examples.record_A
    = peak_record (get_sample_id_from_filename filename) peak_w peak_i.
Proof.
  apply (@rows_are_peaks_of_entries Reference.pandas script_config Examples.lab
           ["A.csv"; "B.csv"; "notes.txt"; "C.csv"]).
  reflexivity.
Defined.

(** X12. When the loop ends, every selected entry has been announced on
    the console by its progress line, which shows the filename and the
    sample id, whether its file gives a peak or not. *)
Theorem every_entry_is_announced {pd : Pandas} (cfg : Config) (w : World)
  (filenames : list string) (acc rows : list dict) (filename : string) :
  outcome (process_entries cfg w filenames acc) = inr rows ->
  In filename filenames ->
  Py.endswith filename ".csv" = true ->
  In (Printed ("Processing '" ++ filename ++ "' (Sample ID: "
                 ++ get_sample_id_from_filename filename ++ ")..."))
     (trace (process_entries cfg w filenames acc)).
Proof.
  intros Hrows Hin Hsuffix.
  assert (Hline : In (Printed (processing_line filename))
                     (filter is_progress
                        (trace (process_entries cfg w filenames acc)))).
  { rewrite (process_entries_progress cfg w filenames acc rows Hrows).
    apply (in_map (fun f => Printed (processing_line f))).
    unfold selected. apply filter_In. now split. }
  apply filter_In in Hline. exact (proj1 Hline).
Qed.

Lemma every_entry_is_announced_witness :
  In (Printed ("Processing '" ++ "C.csv" ++ "' (Sample ID: "
                 ++ get_sample_id_from_filename "C.csv" ++ ")..."))
     (trace (@process_entries Reference.pandas script_config Examples.lab
               ["A.csv"; "B.csv"; "notes.txt"; "C.csv"] [])).
Proof.
  apply (@every_entry_is_announced Reference.pandas script_config Examples.lab
           ["A.csv"; "B.csv"; "notes.txt"; "C.csv"] [] [Examples.record_A]
           "C.csv").
  - reflexivity.
  - right. right. right. now left.
  - reflexivity.
Defined.

(* ===================================================================== *)
(** ** The output table *)
(* ===================================================================== *)

(** Every file that is written holds the frame of the records. *)
Lemma save_writes_table {pd : Pandas} (cfg : Config) (w : World)
  (data : list dict) (ev : event) :
  In ev (writes (trace (save_results cfg w data))) ->
  (exists path, ev = WroteCsv path (mkDataFrame data)) \/
  (exists path sheet_name, ev = WroteExcel path sheet_name (mkDataFrame data)).
Proof.
  destruct data as [|d data]; [intros []|].
  unfold save_results, save_excel, try_except, to_excel, to_csv, bind, print,
    ret, raise.
  destruct (String.eqb (OUTPUT_FILE_TYPE cfg) "csv").
  - destruct (to_csv_error w (OUTPUT_PEAK_DATA_FILE cfg)); cbn;
      [intros [] | intros [<-|[]]; left; now eexists].
  - destruct (String.eqb (OUTPUT_FILE_TYPE cfg) "excel"); [|intros []].
    destruct (to_excel_raises w (OUTPUT_PEAK_DATA_FILE cfg)) as [e|];
      [|cbn; intros [<-|[]]; right; now eexists; eexists].
    destruct (is_ImportError e); [|intros []].
    destruct (to_csv_error w (fallback_path cfg)); cbn;
      [intros [] | intros [<-|[]]; left; now eexists].
Qed.

(** C6 (as the code has it). After the loop has ended with its records:
    they are one row per selected file that gave a peak, in the order of
    processing; without any record the run reports that nothing was
    extracted and writes no file; with records, and the output type
    [csv] or [excel] whose writer does not raise, the run writes exactly
    one file, the table with the three fixed columns and these rows; and
    whatever the output type and the writers do, the run writes at most
    one file, and a file that it writes is this table. *)
Theorem output_table_rows {pd : Pandas} (cfg : Config) (w : World)
  (filenames : list string) (rows : list dict) :
  listdir w (RAW_PL_DATA_FOLDER cfg) = inr filenames ->
  outcome (process_entries cfg w filenames []) = inr rows ->
  let table := {| columns := output_columns; records := rows |} in
  rows = successful_records cfg w filenames /\
  (rows = [] ->
   outcome (main cfg w) = inr tt /\
   writes (trace (main cfg w)) = [] /\
   In (Printed nothing_extracted) (trace (main cfg w))) /\
  (rows <> [] ->
   OUTPUT_FILE_TYPE cfg = "csv" ->
   to_csv_error w (OUTPUT_PEAK_DATA_FILE cfg) = None ->
   outcome (main cfg w) = inr tt /\
   writes (trace (main cfg w)) = [WroteCsv (OUTPUT_PEAK_DATA_FILE cfg) table]) /\
  (rows <> [] ->
   OUTPUT_FILE_TYPE cfg = "excel" ->
   to_excel_raises w (OUTPUT_PEAK_DATA_FILE cfg) = None ->
   outcome (main cfg w) = inr tt /\
   writes (trace (main cfg w))
   = [WroteExcel (OUTPUT_PEAK_DATA_FILE cfg) "PL_Peaks" table]) /\
  List.length (writes (trace (main cfg w))) <= 1 /\
  (forall ev,
      In ev (writes (trace (main cfg w))) ->
      (exists path, ev = WroteCsv path table) \/
      (exists path sheet_name, ev = WroteExcel path sheet_name table)).
Proof.
  intros Hlist Hloop table.
  destruct (main_listed cfg w filenames rows Hlist Hloop) as [Hout [Hwr [Hin _]]].
  assert (Hrows : rows = successful_records cfg w filenames)
    by exact (proj1 (process_entries_records cfg w filenames [] rows Hloop)).
  assert (Htable : rows <> [] -> mkDataFrame rows = table).
  { intros Hne. apply mkDataFrame_peaks; [assumption|].
    rewrite Hrows. apply successful_records_keys. }
  split; [assumption|]. split; [|split; [|split; [|split]]].
  - intros Hnil. rewrite Hout, Hwr. rewrite Hnil in Hin |- *.
    rewrite save_nothing. split; [reflexivity|]. split; [reflexivity|].
    apply Hin. rewrite save_nothing. now left.
  - intros Hne Htype Hok. rewrite Hout, Hwr, <- (Htable Hne).
    now apply save_csv.
  - intros Hne Htype Hok. rewrite Hout, Hwr, <- (Htable Hne).
    now apply save_excel_ok.
  - rewrite Hwr. apply save_writes_at_most_one.
  - intros ev. rewrite Hwr. intros Hev.
    destruct rows as [|d rows'] eqn:Hr; [destruct Hev|].
    rewrite <- Htable by discriminate.
    now apply (save_writes_table cfg w).
Qed.

(** The folder with the samples A, B and C: one row, for A. *)
Lemma output_table_rows_witness :
  [Examples.record_A]
  = @successful_records Reference.pandas script_config Examples.lab
      ["A.csv"; "B.csv"; "notes.txt"; "C.csv"] /\
  outcome (@main Reference.pandas script_config Examples.lab) = inr tt /\
  writes (trace (@main Reference.pandas script_config Examples.lab))
  = [WroteCsv "extracted_pl_peaks.csv" Examples.table_A].
Proof.
  destruct (@output_table_rows Reference.pandas script_config Examples.lab
              ["A.csv"; "B.csv"; "notes.txt"; "C.csv"] [Examples.record_A]
              eq_refl eq_refl) as [Hrows [_ [Hcsv _]]].
  split; [exact Hrows|].
  apply Hcsv.
  - discriminate.
  - reflexivity.
  - reflexivity.
Defined.

(** With records accumulated and the output file not writable, the run
    writes nothing: the exception of the writer ends it. *)
Lemma output_table_rows_counterexample :
  outcome (@process_entries Reference.pandas (Examples.excel_config "peaks.xlsx")
             Examples.lab_read_only ["A.csv"; "B.csv"; "notes.txt"; "C.csv"] [])
  = inr [Examples.record_A] /\
  writes (trace (@main Reference.pandas (Examples.excel_config "peaks.xlsx")
                   Examples.lab_read_only)) = [] /\
  outcome (@main Reference.pandas (Examples.excel_config "peaks.xlsx")
             Examples.lab_read_only)
  = inl Examples.permission_denied.
Proof. split; [reflexivity|]. split; reflexivity. Qed.

(* ===================================================================== *)
(** ** The spreadsheet fallback *)
(* ===================================================================== *)



(** C7. The fallback does not replace the extension but every
    occurrence of [.xlsx] in the configured path: with the output path
    [run.xlsx_out/peaks.xlsx], the output type [excel] and the module of
    the spreadsheet writer missing, the delimited text is written at
    [run.csv_out/peaks.csv], which is not the configured path with its
    extension replaced. *)
Theorem fallback_rewrites_folder_name :
  @to_excel_raises Reference.pandas Examples.lab_no_openpyxl
    "run.xlsx_out/peaks.xlsx" = Some Examples.no_openpyxl /\
  is_ImportError Examples.no_openpyxl = true /\
  outcome (@main Reference.pandas
             (Examples.excel_config "run.xlsx_out/peaks.xlsx")
             Examples.lab_no_openpyxl) = inr tt /\
  writes (trace (@main Reference.pandas
                   (Examples.excel_config "run.xlsx_out/peaks.xlsx")
                   Examples.lab_no_openpyxl))
  = [WroteCsv "run.csv_out/peaks.csv" Examples.table_A] /\
  with_csv_extension "run.xlsx_out/peaks.xlsx" = "run.xlsx_out/peaks.csv" /\
  "run.csv_out/peaks.csv" <> with_csv_extension "run.xlsx_out/peaks.xlsx".
Proof.
  split; [reflexivity|]. split; [reflexivity|]. split; [reflexivity|].
  split; [reflexivity|]. split; [reflexivity|]. discriminate.
Qed.



(** An exception of [to_excel] that is no ImportError is not caught. *)
Lemma save_excel_raises {pd : Pandas} (cfg : Config) (w : World)
  (data : list dict) (e : exn) :
  data <> [] ->
  OUTPUT_FILE_TYPE cfg = "excel" ->
  to_excel_raises w (OUTPUT_PEAK_DATA_FILE cfg) = Some e ->
  is_ImportError e = false ->
  outcome (save_results cfg w data) = inl e /\
  writes (trace (save_results cfg w data)) = [].
Proof.
  intros Hne Htype Hxl Himport. destruct data as [|d data]; [contradiction|].
  unfold save_results, save_excel, try_except, to_excel, bind, print, ret, raise.
  rewrite Htype, Hxl, Himport. split; reflexivity.
Qed.

(** X19. With the output type [excel] and a configured path for whose
    extension pandas knows no writer (as the path of the script,
    [extracted_pl_peaks.csv]), [to_excel] raises a ValueError, which the
    handler for ImportError does not catch: the run ends with it after
    the loop and writes no file. *)
Theorem excel_without_engine_is_fatal {pd : Pandas} (cfg : Config) (w : World)
  (filenames : list string) (rows : list dict) :
  listdir w (RAW_PL_DATA_FOLDER cfg) = inr filenames ->
  outcome (process_entries cfg w filenames []) = inr rows ->
  rows <> [] ->
  OUTPUT_FILE_TYPE cfg = "excel" ->
  has_excel_writer (extension_of (OUTPUT_PEAK_DATA_FILE cfg)) = false ->
  outcome (main cfg w)
  = inl (Exn ValueError
           ("No engine for filetype: '"
              ++ extension_of (OUTPUT_PEAK_DATA_FILE cfg) ++ "'")) /\
  writes (trace (main cfg w)) = [].
Proof.
  intros Hlist Hloop Hne Htype Hengine.
  destruct (main_listed cfg w filenames rows Hlist Hloop) as [Hout [Hwr _]].
  rewrite Hout, Hwr. apply save_excel_raises; try assumption.
  - unfold to_excel_raises. now rewrite Hengine.
  - reflexivity.
Qed.

Lemma excel_without_engine_is_fatal_witness :
  outcome (@main Reference.pandas
             (Examples.excel_config "extracted_pl_peaks.csv") Examples.lab)
  = inl (Exn ValueError "No engine for filetype: 'csv'") /\
  writes (trace (@main Reference.pandas
                   (Examples.excel_config "extracted_pl_peaks.csv")
                   Examples.lab)) = [].
Proof.
  apply (@excel_without_engine_is_fatal Reference.pandas
           (Examples.excel_config "extracted_pl_peaks.csv") Examples.lab
           ["A.csv"; "B.csv"; "notes.txt"; "C.csv"] [Examples.record_A]).
  - reflexivity.
  - reflexivity.
  - discriminate.
  - reflexivity.
  - reflexivity.
Defined.

(* ===================================================================== *)
(** ** Failures that end the run *)
(* ===================================================================== *)




(* ===================================================================== *)
(** ** Saving: the other cases *)
(* ===================================================================== *)

(** X14. With an output type that is neither [csv] nor [excel], a run
    whose loop has ended with records writes no file, ends without an
    exception, and still prints that the data were saved to the
    configured path. *)
Theorem other_output_type_writes_nothing {pd : Pandas} (cfg : Config)
  (w : World) (filenames : list string) (rows : list dict) :
  listdir w (RAW_PL_DATA_FOLDER cfg) = inr filenames ->
  outcome (process_entries cfg w filenames []) = inr rows ->
  rows <> [] ->
  OUTPUT_FILE_TYPE cfg <> "csv" ->
  OUTPUT_FILE_TYPE cfg <> "excel" ->
  outcome (main cfg w) = inr tt /\
  writes (trace (main cfg w)) = [] /\
  In (Printed ("Consolidated data saved to: " ++ OUTPUT_PEAK_DATA_FILE cfg))
     (trace (main cfg w)).
Proof.
  intros Hlist Hloop Hne Hcsv Hxl.
  destruct (main_listed cfg w filenames rows Hlist Hloop) as [Hout [Hwr [Hin _]]].
  destruct (save_other_type cfg w _ Hne Hcsv Hxl) as [Hsave [Hnone Hline]].
  rewrite Hout, Hwr. split; [assumption|]. split; [assumption|].
  now apply Hin.
Qed.

Lemma other_output_type_writes_nothing_witness :
  outcome (@main Reference.pandas (Examples.typed_config "xlsx" "peaks.xlsx")
             Examples.lab) = inr tt /\
  writes (trace (@main Reference.pandas
                   (Examples.typed_config "xlsx" "peaks.xlsx") Examples.lab))
  = [] /\
  In (Printed ("Consolidated data saved to: " ++ "peaks.xlsx"))
     (trace (@main Reference.pandas (Examples.typed_config "xlsx" "peaks.xlsx")
               Examples.lab)).
Proof.
  apply (@other_output_type_writes_nothing Reference.pandas
           (Examples.typed_config "xlsx" "peaks.xlsx") Examples.lab
           ["A.csv"; "B.csv"; "notes.txt"; "C.csv"] [Examples.record_A]
           eq_refl eq_refl);
    discriminate.
Defined.

(** X15. A run writes at most one file, whatever the configuration and
    the world, and none when the input folder cannot be listed. *)
Theorem at_most_one_file_written {pd : Pandas} (cfg : Config) (w : World) :
  List.length (writes (trace (main cfg w))) <= 1 /\
  (forall e, listdir w (RAW_PL_DATA_FOLDER cfg) = inl e ->
             writes (trace (main cfg w)) = []).
Proof.
  split.
  - destruct (listdir w (RAW_PL_DATA_FOLDER cfg)) as [e|filenames] eqn:Hlist.
    + rewrite (main_not_listed cfg w e Hlist). cbn. lia.
    + destruct (outcome (process_entries cfg w filenames [])) as [e|rows] eqn:Hloop.
      * destruct (main_aborted cfg w filenames e Hlist Hloop) as [_ ->].
        cbn. lia.
      * destruct (main_listed cfg w filenames rows Hlist Hloop) as [_ [Hwr _]].
        rewrite Hwr. apply save_writes_at_most_one.
  - intros e Hlist. now rewrite (main_not_listed cfg w e Hlist).
Qed.

Lemma at_most_one_file_written_witness :
  writes (trace (@main Reference.pandas script_config Examples.lab_missing)) = [].
Proof.
  apply (proj2 (@at_most_one_file_written Reference.pandas script_config
                  Examples.lab_missing)
           (Exn FileNotFoundError "No such file or directory")).
  reflexivity.
Defined.

(* ===================================================================== *)
(** ** A peak that is no pair of floats *)
(* ===================================================================== *)

(** The loop over a listing in two parts is the loop over the first part
    followed by the loop over the second. *)
Lemma process_entries_app {pd : Pandas} (cfg : Config) (w : World)
  (l1 l2 : list string) (acc : list dict) :
  process_entries cfg w (l1 ++ l2) acc
  = bind (process_entries cfg w l1 acc) (process_entries cfg w l2).
Proof.
  revert acc. induction l1 as [|filename l1 IH]; intros acc;
    cbn [app process_entries].
  - unfold bind, ret. now destruct (process_entries cfg w l2 acc).
  - unfold bind at 1 3.
    destruct (process_entry cfg w filename acc) as [t [e|acc']];
      [reflexivity|].
    rewrite IH. unfold bind.
    destruct (process_entries cfg w l1 acc') as [t1 [e|acc'']]; [reflexivity|].
    destruct (process_entries cfg w l2 acc'') as [t2 r].
    now rewrite app_assoc.
Qed.

(** X20. The first selected entry whose file gives a Series for a peak
    ends the run: the print of the peak raises TypeError, which nothing
    catches, so the entries after it are not processed, the run ends
    with that exception and no file is written, whatever peaks the
    entries before it gave. *)
Theorem series_peak_ends_the_run {pd : Pandas} (cfg : Config) (w : World)
  (before after : list string) (filename : string) :
  listdir w (RAW_PL_DATA_FOLDER cfg) = inr (before ++ filename :: after)%list ->
  scalar_peaks cfg w before = true ->
  Py.endswith filename ".csv" = true ->
  scalar_or_none (analysis_of cfg w filename) = false ->
  outcome (main cfg w) = inl format_error /\
  writes (trace (main cfg w)) = [] /\
  trace (process_entries cfg w (before ++ filename :: after) [])
  = (flat_map (entry_events cfg w) (selected before)
       ++ Printed (processing_line filename)
       :: trace (analyze_single_pl_file cfg w
                   (Py.path_join (RAW_PL_DATA_FOLDER cfg) filename)))%list.
Proof.
  intros Hlist Hbefore Hsuffix Hseries.
  pose proof (process_entries_scalar cfg w before [] Hbefore) as Hfirst.
  pose proof (process_entries_trace cfg w before [] _ Hfirst) as Htrace.
  assert (Hloop : process_entries cfg w (before ++ filename :: after) []
                  = ((flat_map (entry_events cfg w) (selected before)
                        ++ Printed (processing_line filename)
                        :: trace (analyze_single_pl_file cfg w
                                    (Py.path_join (RAW_PL_DATA_FOLDER cfg)
                                       filename)))%list,
                     inl format_error)).
  { rewrite process_entries_app.
    rewrite (M_eta (process_entries cfg w before [])), Hfirst, Htrace.
    unfold bind.
    destruct (process_entries_step cfg w filename after
                ([] ++ successful_records cfg w before))
      as [[Hs _]|[[_ [Ha _]]|[[pw [pi [_ [Ha _]]]]|[_ [_ ->]]]]].
    - congruence.
    - rewrite Ha in Hseries. discriminate.
    - rewrite Ha in Hseries. discriminate.
    - reflexivity. }
  assert (Hout : outcome (process_entries cfg w (before ++ filename :: after) [])
                 = inl format_error) by now rewrite Hloop.
  destruct (main_aborted cfg w _ _ Hlist Hout) as [Hmain Hwrites].
  split; [assumption|]. split; [assumption|]. now rewrite Hloop.
Qed.

(** The folder in which the labelled file G.csv comes before A.csv. *)
Lemma series_peak_ends_the_run_witness :
  outcome (@main Reference.pandas script_config Examples.lab_labelled)
  = inl format_error /\
  writes (trace (@main Reference.pandas script_config Examples.lab_labelled))
  = [] /\
  trace (@process_entries Reference.pandas script_config Examples.lab_labelled
           ["G.csv"; "A.csv"] [])
  = [Printed "Processing 'G.csv' (Sample ID: G)..."].
Proof.
  apply (@series_peak_ends_the_run Reference.pandas script_config
           Examples.lab_labelled [] ["A.csv"] "G.csv").
  - reflexivity.
  - reflexivity.
  - reflexivity.
  - reflexivity.
Defined.
